(** * ContextOS planner client: settings resolver and API helpers

    A shallow embedding of [ui/lib/settings.ts] and of the API helper module
    that imports it ([getBaseUrl], [clearSettingsCache] from './settings').

    JavaScript strings are modelled by [string] (code units below 256, the
    Latin-1 range); the values produced by [JSON.parse] by [JsVal]; numbers
    are the integer-valued ones.  An [async] function is a computation in
    the monad [Async]: it threads the [World] (browser storage, the module
    variable [settingsCache], the log of requests handed to [fetch], the
    journal of storage writes and requests in the order they happened) and
    completes normally or by throwing.  A call runs to completion before
    the next one starts: calls suspended at their [await] are not
    interleaved.  [console.log] / [console.error] calls have no effect on
    any of these and are left out. *)

From Stdlib Require Import ZArith NArith String Ascii List Lia Bool.
From stdpp Require Import base option gmap strings.

Local Open Scope string_scope.
Set Warnings "-register-all".

(** ** JavaScript values *)

Inductive JsVal : Type :=
  | JUndefined
  | JNull
  | JBool (b : bool)
  | JNum (n : Z)
  | JStr (s : string)
  | JArr (items : list JsVal)
  | JObj (props : list (string * JsVal)).

(** [ToBoolean]. *)
Definition truthy (v : JsVal) : bool :=
  match v with
  | JUndefined | JNull => false
  | JBool b => b
  | JNum n => negb (n =? 0)%Z
  | JStr s => negb (String.eqb s "")
  | JArr _ | JObj _ => true
  end.

(** [a || b] on values whose evaluation has no effect. *)
Definition js_or (a b : JsVal) : JsVal := if truthy a then a else b.

(** [s || d] for two strings. *)
Definition str_or (s d : string) : string :=
  if String.eqb s "" then d else s.

(** Own property of an object literal or of a parsed JSON object. *)
Fixpoint own_prop (props : list (string * JsVal)) (k : string) : JsVal :=
  match props with
  | [] => JUndefined
  | (k', v) :: rest => if String.eqb k' k then v else own_prop rest k
  end.

(** ** String helpers: [trim], [String(n)], [padStart] *)

(** White space and line terminators of ECMAScript that lie below 256:
    TAB, LF, VT, FF, CR, SP and NBSP. *)
Definition is_js_space (c : ascii) : bool :=
  match N_of_ascii c with
  | 9 | 10 | 11 | 12 | 13 | 32 | 160 => true
  | _ => false
  end%N.

Fixpoint trimStart (s : string) : string :=
  match s with
  | String c rest => if is_js_space c then trimStart rest else s
  | EmptyString => EmptyString
  end.

Fixpoint trimEnd (s : string) : string :=
  match s with
  | String c rest =>
      match trimEnd rest with
      | EmptyString => if is_js_space c then EmptyString else String c EmptyString
      | kept => String c kept
      end
  | EmptyString => EmptyString
  end.

Definition trim (s : string) : string := trimEnd (trimStart s).

Definition digit_char (d : N) : ascii := ascii_of_N (48 + d).

(** Decimal digits of [n], most significant first, in front of [acc]. *)
Fixpoint decimal_digits (fuel : nat) (n : N) (acc : string) : string :=
  let acc' := String (digit_char (n mod 10)) acc in
  match fuel with
  | O => acc'
  | S fuel' => if (n / 10 =? 0)%N then acc' else decimal_digits fuel' (n / 10) acc'
  end.

Definition String_of_N (n : N) : string :=
  decimal_digits (N.to_nat (N.size n)) n "".

(** The decimal numeral of an integer.  For a safe integer ([is_safe_integer],
    which the fields of a [Date] always are) this is what [String(n)] and a
    template literal produce; beyond that range the engine rounds to 17
    significant digits and, from [1e21] on, switches to exponent form. *)
Definition String_of_number (n : Z) : string :=
  if (n <? 0)%Z then "-" +:+ String_of_N (Z.abs_N n) else String_of_N (Z.abs_N n).

(** [Number.isSafeInteger]: below [2^53] in absolute value. *)
Definition is_safe_integer (n : Z) : bool :=
  (Z.abs n <? 2 ^ 53)%Z.

(** [fillLen] characters of [pad] repeated. *)
Fixpoint pad_fill (fillLen : nat) (pad rest : string) : string :=
  match fillLen with
  | O => ""
  | S k =>
      match rest with
      | String c rest' => String c (pad_fill k pad rest')
      | EmptyString =>
          match pad with
          | String c pad' => String c (pad_fill k pad pad')
          | EmptyString => ""
          end
      end
  end.

Definition padStart (s : string) (targetLength : nat) (padString : string) : string :=
  if (targetLength <=? String.length s)%nat then s
  else pad_fill (targetLength - String.length s) padString padString +:+ s.

(** ** The world the module runs in *)

(** What [new Date()] exposes to the code: the local calendar fields and the
    UTC ones ([getMonth] counts from 0). *)
Record Date : Type := {
  getFullYear : Z;
  getMonth : Z;
  getDate : Z;
  getUTCFullYear : Z;
  getUTCMonth : Z;
  getUTCDate : Z
}.

Record Request : Type := {
  url : string;
  method : string;
  cache : option string;
  headers : list (string * string);
  body : option JsVal       (* the value handed to [JSON.stringify] *)
}.

Inductive Payload : Type :=
  | JsonBody (v : JsVal)    (* the body parses to [v] *)
  | MalformedBody           (* the body is not JSON *)
  | AbortedBody.            (* the connection drops while the body is read *)

Record Response : Type := {
  status : Z;
  statusText : string;
  payload : Payload
}.

(** [response.ok]: the status is in the range 200-299. *)
Definition ok (r : Response) : bool :=
  ((200 <=? status r) && (status r <=? 299))%Z.

Inductive FetchOutcome : Type :=
  | NetworkFailure          (* [fetch] rejects *)
  | Responded (r : Response).

Inductive JsExn : Type :=
  | Error (message : string)
  | TypeError
  | SyntaxError
  | DOMException (name : string).

Record Settings : Type := {
  togetherApiKey : JsVal;
  groqApiKey : JsVal;
  serverUrl : string
}.

(** [Partial<Settings>]: [None] is an absent ([undefined]) field. *)
Module Partial.

Record Settings : Type := {
  togetherApiKey : option string;
  groqApiKey : option string;
  serverUrl : option string
}.

End Partial.

(** The part of the environment the code only reads. *)
Record Host : Type := {
  window_defined : bool;                 (* typeof window !== 'undefined' *)
  NEXT_PUBLIC_API_URL : option string;   (* process.env.NEXT_PUBLIC_API_URL *)
  storage_denied : bool;                 (* every localStorage access throws *)
  storage_full : bool;                   (* localStorage.setItem throws *)
  clock : Date;                          (* new Date() *)
  backend : nat -> FetchOutcome;         (* the outcome of the n-th request *)
  engine_number_text : Z -> string       (* Number::toString beyond the safe
                                            integers, left to the engine *)
}.

(** What the code has done to the outside, in order. *)
Inductive Effect : Type :=
  | StorageWrite (key value : string)    (* a [setItem] that went through *)
  | StorageRemove (key : string)         (* a [removeItem] that went through *)
  | RequestIssued (req : Request).       (* a call of [fetch] *)

Record World : Type := {
  host : Host;
  localStorage : gmap string string;
  settingsCache : option Settings;
  sent : list Request;                   (* requests issued, newest first *)
  journal : list Effect                  (* storage writes and requests,
                                            newest first *)
}.

Definition with_localStorage (m : gmap string string) (w : World) : World :=
  {| host := host w; localStorage := m;
     settingsCache := settingsCache w; sent := sent w; journal := journal w |}.

Definition with_settingsCache (c : option Settings) (w : World) : World :=
  {| host := host w; localStorage := localStorage w;
     settingsCache := c; sent := sent w; journal := journal w |}.

Definition with_sent (l : list Request) (w : World) : World :=
  {| host := host w; localStorage := localStorage w;
     settingsCache := settingsCache w; sent := l; journal := journal w |}.

Definition with_journal (l : list Effect) (w : World) : World :=
  {| host := host w; localStorage := localStorage w;
     settingsCache := settingsCache w; sent := sent w; journal := l |}.

(** The world once [setItem key value] has gone through. *)
Definition written (key value : string) (w : World) : World :=
  with_journal (StorageWrite key value :: journal w)
    (with_localStorage (<[key := value]> (localStorage w)) w).

(** The world once [removeItem key] has gone through. *)
Definition removed (key : string) (w : World) : World :=
  with_journal (StorageRemove key :: journal w)
    (with_localStorage (delete key (localStorage w)) w).

(** The world once [req] has been handed to [fetch]. *)
Definition issued (req : Request) (w : World) : World :=
  with_journal (RequestIssued req :: journal w) (with_sent (req :: sent w) w).

(** The outcome the backend gives to the next request. *)
Definition reply (w : World) : FetchOutcome :=
  backend (host w) (length (sent w)).

(** ** Computations that may throw *)

Inductive Completion (A : Type) : Type :=
  | Normal (a : A)
  | Thrown (e : JsExn).
Arguments Normal {A} a.
Arguments Thrown {A} e.

Definition Async (A : Type) : Type := World -> Completion A * World.

Definition ret {A} (a : A) : Async A := fun w => (Normal a, w).

Definition bind {A B} (m : Async A) (k : A -> Async B) : Async B :=
  fun w =>
    match m w with
    | (Normal a, w') => k a w'
    | (Thrown e, w') => (Thrown e, w')
    end.

Definition throw {A} (e : JsExn) : Async A := fun w => (Thrown e, w).

(** [try { m } catch (error) { handler error }]. *)
Definition try_catch {A} (m : Async A) (handler : JsExn -> Async A) : Async A :=
  fun w =>
    match m w with
    | (Normal a, w') => (Normal a, w')
    | (Thrown e, w') => handler e w'
    end.

Notation "'let*' x ':=' m 'in' k" := (bind m (fun x => k))
  (at level 10, x name, m at level 100, k at level 200, only parsing).

(** *** Primitives of the browser *)

Definition typeof_window_undefined : Async bool :=
  fun w => (Normal (negb (window_defined (host w))), w).

Definition process_env_NEXT_PUBLIC_API_URL : Async (option string) :=
  fun w => (Normal (NEXT_PUBLIC_API_URL (host w)), w).

Definition localStorage_getItem (key : string) : Async (option string) :=
  fun w =>
    if storage_denied (host w) then (Thrown (DOMException "SecurityError"), w)
    else (Normal (localStorage w !! key), w).

Definition localStorage_setItem (key value : string) : Async unit :=
  fun w =>
    if storage_denied (host w) then (Thrown (DOMException "SecurityError"), w)
    else if storage_full (host w) then (Thrown (DOMException "QuotaExceededError"), w)
    else (Normal tt, written key value w).

Definition localStorage_removeItem (key : string) : Async unit :=
  fun w =>
    if storage_denied (host w) then (Thrown (DOMException "SecurityError"), w)
    else (Normal tt, removed key w).

Definition new_Date : Async Date := fun w => (Normal (clock (host w)), w).

(** [`${n}`] for an integer-valued number: the decimal numeral of a safe
    integer, and what the engine prints for any other. *)
Definition template_number (h : Host) (n : Z) : string :=
  if is_safe_integer n then String_of_number n else engine_number_text h n.

Definition read_settingsCache : Async (option Settings) :=
  fun w => (Normal (settingsCache w), w).

Definition write_settingsCache (c : option Settings) : Async unit :=
  fun w => (Normal tt, with_settingsCache c w).

(** [await fetch(url, init)]: the request is issued, then the promise
    resolves with a response or rejects. *)
Definition fetch (req : Request) : Async Response :=
  fun w =>
    let w' := issued req w in
    match reply w with
    | NetworkFailure => (Thrown TypeError, w')
    | Responded r => (Normal r, w')
    end.

(** [await response.json()]. *)
Definition response_json (r : Response) : Async JsVal :=
  match payload r with
  | JsonBody v => ret v
  | MalformedBody => throw SyntaxError
  | AbortedBody => throw TypeError
  end.

(** [await response.text()]; the text itself is only logged. *)
Definition response_text (r : Response) : Async unit :=
  match payload r with
  | AbortedBody => throw TypeError
  | _ => ret tt
  end.

(** [v.k] for a key [k] that no built-in prototype defines. *)
Definition member (v : JsVal) (k : string) : Async JsVal :=
  match v with
  | JUndefined | JNull => throw TypeError
  | JObj props => ret (own_prop props k)
  | _ => ret JUndefined
  end.

(** [v?.k]. *)
Definition optional_member (v : JsVal) (k : string) : Async JsVal :=
  match v with
  | JUndefined | JNull => ret JUndefined
  | _ => member v k
  end.

(** ** settings.ts *)

Definition DEFAULT_SERVER_URL (h : Host) : string :=
  match NEXT_PUBLIC_API_URL h with
  | Some configured => str_or configured "http://localhost:8000"
  | None => "http://localhost:8000"
  end.

Definition SERVER_URL_KEY : string := "contextos_server_url".

Definition getStoredServerUrl : Async string :=
  let* on_server := typeof_window_undefined in
  if on_server then fun w => ret (DEFAULT_SERVER_URL (host w)) w
  else
    let* found :=
      try_catch
        (let* stored := localStorage_getItem SERVER_URL_KEY in
         match stored with
         | Some stored =>
             if negb (String.eqb stored "") && negb (String.eqb (trim stored) "")
             then ret (Some (trim stored))
             else ret None
         | None => ret None
         end)
        (fun _ => ret None) in
    match found with
    | Some stored => ret stored
    | None => fun w => ret (DEFAULT_SERVER_URL (host w)) w
    end.

Definition storeServerUrl (url : string) : Async unit :=
  let* on_server := typeof_window_undefined in
  if on_server then ret tt
  else
    try_catch
      (let trimmedUrl := trim url in
       localStorage_setItem SERVER_URL_KEY trimmedUrl)
      (fun _ => ret tt).

Definition loadSettings : Async Settings :=
  try_catch
    (let* serverUrl := getStoredServerUrl in
     let* response :=
       fetch {| url := serverUrl +:+ "/api/settings"; method := "GET";
                cache := Some "no-cache"; headers := []; body := None |} in
     if negb (ok response)
     then throw (Error ("Failed to load settings: " +:+ statusText response))
     else
       let* backendSettings := response_json response in
       let* together := member backendSettings "togetherApiKey" in
       let* groq := member backendSettings "groqApiKey" in
       let merged :=
         {| togetherApiKey := js_or together (JStr "");
            groqApiKey := js_or groq (JStr "");
            serverUrl := serverUrl |} in
       let* _ := write_settingsCache (Some merged) in
       ret merged)
    (fun _ =>
       let* serverUrl := getStoredServerUrl in
       ret {| togetherApiKey := JStr ""; groqApiKey := JStr "";
              serverUrl := serverUrl |}).

(** The object [backendUpdates] built from the fields of [updates] that are
    not [undefined], the server URL left out. *)
Definition backendUpdates_of (updates : Partial.Settings) : list (string * JsVal) :=
  match Partial.togetherApiKey updates with
  | Some k => [("togetherApiKey", JStr k)]
  | None => []
  end ++
  match Partial.groqApiKey updates with
  | Some k => [("groqApiKey", JStr k)]
  | None => []
  end.

(** [settingsCache?.field]. *)
Definition cached_field (field : Settings -> JsVal) (c : option Settings) : JsVal :=
  match c with
  | Some s => field s
  | None => JUndefined
  end.

Definition saveSettings (updates : Partial.Settings) : Async Settings :=
  try_catch
    (let* targetUrl :=
       match Partial.serverUrl updates with
       | Some newUrl =>
           fun w =>
             (let targetUrl := str_or (trim newUrl) (DEFAULT_SERVER_URL (host w)) in
              let* _ := storeServerUrl targetUrl in
              ret targetUrl) w
       | None => getStoredServerUrl
       end in
     let backendUpdates := backendUpdates_of updates in
     let* response :=
       fetch {| url := targetUrl +:+ "/api/settings"; method := "POST";
                cache := None;
                headers := [("Content-Type", "application/json")];
                body := Some (JObj backendUpdates) |} in
     if negb (ok response)
     then throw (Error ("Failed to save settings: " +:+ statusText response))
     else
       let* result := response_json response in
       let* settings := member result "settings" in
       let* together := optional_member settings "togetherApiKey" in
       let* groq := optional_member settings "groqApiKey" in
       let* cached := read_settingsCache in
       let merged :=
         {| togetherApiKey :=
              js_or (js_or (js_or together (own_prop backendUpdates "togetherApiKey"))
                           (cached_field togetherApiKey cached))
                    (JStr "");
            groqApiKey :=
              js_or (js_or (js_or groq (own_prop backendUpdates "groqApiKey"))
                           (cached_field groqApiKey cached))
                    (JStr "");
            serverUrl := targetUrl |} in
       let* _ := write_settingsCache (Some merged) in
       ret merged)
    (fun error => throw error).

Definition getBaseUrl : Async string :=
  let* serverUrl := getStoredServerUrl in
  ret serverUrl.

Definition clearSettingsCache : Async unit :=
  write_settingsCache None.

Definition getCachedSettings : Async (option Settings) :=
  read_settingsCache.

Definition resetServerUrl : Async unit :=
  let* on_server := typeof_window_undefined in
  let* _ := if negb on_server then localStorage_removeItem SERVER_URL_KEY else ret tt in
  write_settingsCache None.

(** ** The API helper module *)

Definition getBackendUrl : Async string :=
  let* on_server := typeof_window_undefined in
  if on_server then
    let* configured := process_env_NEXT_PUBLIC_API_URL in
    match configured with
    | Some configured => ret (str_or configured "http://localhost:8000")
    | None => ret "http://localhost:8000"
    end
  else
    let* url := getBaseUrl in
    ret url.

(** The two headers every helper of this module sends. *)
Definition json_headers : list (string * string) :=
  [("Content-Type", "application/json");
   ("ngrok-skip-browser-warning", "69420")].

Definition captureContext (content : string) : Async JsVal :=
  try_catch
    (let* backendUrl := getBackendUrl in
     let* response :=
       fetch {| url := backendUrl +:+ "/api/context"; method := "POST";
                cache := None; headers := json_headers;
                body := Some (JObj [("source", JStr "manual");
                                    ("content", JStr content)]) |} in
     if negb (ok response) then
       let* error := response_json response in
       let* message := member error "error" in
       ret (JObj [("ok", JBool false);
                  ("error", js_or message (JStr "Failed to capture context"))])
     else
       let* result := response_json response in
       ret result)
    (fun _ => ret (JObj [("ok", JBool false); ("error", JStr "Network error")])).

Definition getDailyPlan (dateStr : string) : Async JsVal :=
  try_catch
    (let* backendUrl := getBackendUrl in
     let fullUrl := backendUrl +:+ "/api/daily-plan?date=" +:+ dateStr in
     let* response :=
       fetch {| url := fullUrl; method := "GET"; cache := Some "no-cache";
                headers := json_headers; body := None |} in
     if negb (ok response) then
       let* _ := response_text response in
       ret JNull
     else
       let* data := response_json response in
       ret data)
    (fun _ => ret JNull).

(** The string [getTodayPlan] builds from [now]. *)
Definition today_dateStr (now : Date) : string :=
  String_of_number (getFullYear now) +:+ "-" +:+
  padStart (String_of_number (getMonth now + 1)) 2 "0" +:+ "-" +:+
  padStart (String_of_number (getDate now)) 2 "0".

Definition getTodayPlan : Async JsVal :=
  let* now := new_Date in
  let dateStr := today_dateStr now in
  getDailyPlan dateStr.

(** [data.ok ? data.plan : null]. *)
Definition plan_if_ok (data : JsVal) : Async JsVal :=
  let* flag := member data "ok" in
  if truthy flag then member data "plan" else ret JNull.

Definition generateDailyPlan (dateStr : string) : Async JsVal :=
  try_catch
    (let* backendUrl := getBackendUrl in
     let fullUrl := backendUrl +:+ "/api/daily-plan/generate?date=" +:+ dateStr in
     let* response :=
       fetch {| url := fullUrl; method := "POST"; cache := Some "no-cache";
                headers := json_headers; body := None |} in
     if negb (ok response) then
       let* _ := response_text response in
       ret JNull
     else
       let* data := response_json response in
       plan_if_ok data)
    (fun _ => ret JNull).

Definition getAvailableDates : Async JsVal :=
  try_catch
    (let* backendUrl := getBackendUrl in
     let fullUrl := backendUrl +:+ "/api/daily-plan/available-dates" in
     let* response :=
       fetch {| url := fullUrl; method := "GET"; cache := Some "no-cache";
                headers := json_headers; body := None |} in
     if negb (ok response) then
       let* _ := response_text response in
       ret JNull
     else
       let* data := response_json response in
       ret data)
    (fun _ => ret JNull).

Definition generateMissingPlans : Async JsVal :=
  try_catch
    (let* backendUrl := getBackendUrl in
     let fullUrl := backendUrl +:+ "/api/daily-plan/generate-missing" in
     let* response :=
       fetch {| url := fullUrl; method := "POST"; cache := Some "no-cache";
                headers := json_headers; body := None |} in
     if negb (ok response) then ret JNull
     else response_json response)
    (fun _ => ret JNull).

Definition toggleTaskCompletion (taskId : Z) (completed : bool) (date : string)
  : Async JsVal :=
  try_catch
    (let* backendUrl := getBackendUrl in
     fun w =>
       (let fullUrl :=
          backendUrl +:+ "/api/tasks/" +:+ template_number (host w) taskId in
        let* response :=
          fetch {| url := fullUrl; method := "PATCH"; cache := Some "no-cache";
                   headers := json_headers;
                   body := Some (JObj [("completed", JBool completed);
                                       ("date", JStr date)]) |} in
        if negb (ok response) then ret JNull
        else
          let* data := response_json response in
          plan_if_ok data) w)
    (fun _ => ret JNull).

Definition refreshApiSettings : Async unit :=
  clearSettingsCache.

(** ** Sequences of calls *)

Inductive Call : Type :=
  | CallLoadSettings
  | CallSaveSettings (updates : Partial.Settings)
  | CallGetBaseUrl
  | CallClearSettingsCache
  | CallGetCachedSettings
  | CallResetServerUrl
  | CallCaptureContext (content : string)
  | CallGetDailyPlan (dateStr : string)
  | CallGetTodayPlan
  | CallGenerateDailyPlan (dateStr : string)
  | CallGetAvailableDates
  | CallGenerateMissingPlans
  | CallToggleTaskCompletion (taskId : Z) (completed : bool) (date : string)
  | CallRefreshApiSettings.

(** The world a call leaves behind, whatever it returns or throws. *)
Definition after (c : Call) (w : World) : World :=
  match c with
  | CallLoadSettings => snd (loadSettings w)
  | CallSaveSettings updates => snd (saveSettings updates w)
  | CallGetBaseUrl => snd (getBaseUrl w)
  | CallClearSettingsCache => snd (clearSettingsCache w)
  | CallGetCachedSettings => snd (getCachedSettings w)
  | CallResetServerUrl => snd (resetServerUrl w)
  | CallCaptureContext content => snd (captureContext content w)
  | CallGetDailyPlan dateStr => snd (getDailyPlan dateStr w)
  | CallGetTodayPlan => snd (getTodayPlan w)
  | CallGenerateDailyPlan dateStr => snd (generateDailyPlan dateStr w)
  | CallGetAvailableDates => snd (getAvailableDates w)
  | CallGenerateMissingPlans => snd (generateMissingPlans w)
  | CallToggleTaskCompletion taskId completed date =>
      snd (toggleTaskCompletion taskId completed date w)
  | CallRefreshApiSettings => snd (refreshApiSettings w)
  end.

Definition after_all (calls : list Call) (w : World) : World :=
  fold_left (fun acc c => after c acc) calls w.

(** ** Closed forms used to reason about the code *)

(** What [getStoredServerUrl] returns in a given world. *)
Definition stored_url (w : World) : string :=
  if window_defined (host w) && negb (storage_denied (host w)) then
    match localStorage w !! SERVER_URL_KEY with
    | Some stored => str_or (trim stored) (DEFAULT_SERVER_URL (host w))
    | None => DEFAULT_SERVER_URL (host w)
    end
  else DEFAULT_SERVER_URL (host w).

(** [localStorage.setItem] goes through: a browser, access granted, quota
    not exceeded. *)
Definition storage_usable (w : World) : bool :=
  window_defined (host w) && negb (storage_denied (host w))
  && negb (storage_full (host w)).

(** The world [storeServerUrl target] leaves. *)
Definition stored (target : string) (w : World) : World :=
  if storage_usable w
  then written SERVER_URL_KEY (trim target) w
  else w.

(** The first statements of [saveSettings]: the target is chosen and, for a
    new server URL, stored. *)
Definition choose_target (updates : Partial.Settings) : Async string :=
  match Partial.serverUrl updates with
  | Some newUrl =>
      fun w =>
        (let targetUrl := str_or (trim newUrl) (DEFAULT_SERVER_URL (host w)) in
         let* _ := storeServerUrl targetUrl in
         ret targetUrl) w
  | None => getStoredServerUrl
  end.

Definition target_url (updates : Partial.Settings) (w : World) : string :=
  match Partial.serverUrl updates with
  | Some newUrl => str_or (trim newUrl) (DEFAULT_SERVER_URL (host w))
  | None => stored_url w
  end.

(** The world in which [saveSettings] issues its request. *)
Definition before_request (updates : Partial.Settings) (w : World) : World :=
  match Partial.serverUrl updates with
  | Some _ => stored (target_url updates w) w
  | None => w
  end.

Definition save_request (updates : Partial.Settings) (w : World) : Request :=
  {| url := target_url updates w +:+ "/api/settings"; method := "POST";
     cache := None; headers := [("Content-Type", "application/json")];
     body := Some (JObj (backendUpdates_of updates)) |}.

Definition load_request (w : World) : Request :=
  {| url := stored_url w +:+ "/api/settings"; method := "GET";
     cache := Some "no-cache"; headers := []; body := None |}.

Definition fallback_settings (w : World) : Settings :=
  {| togetherApiKey := JStr ""; groqApiKey := JStr ""; serverUrl := stored_url w |}.

(** Reading [k] from a value that is neither [null] nor [undefined]. *)
Definition field_of (v : JsVal) (k : string) : JsVal :=
  match v with
  | JObj props => own_prop props k
  | _ => JUndefined
  end.

Definition load_outcome (w : World) : Completion Settings * World :=
  let w2 := issued (load_request w) w in
  match reply w with
  | NetworkFailure => (Normal (fallback_settings w), w2)
  | Responded r =>
      if ok r then
        match payload r with
        | JsonBody JNull | JsonBody JUndefined => (Normal (fallback_settings w), w2)
        | JsonBody backendSettings =>
            let merged :=
              {| togetherApiKey :=
                   js_or (field_of backendSettings "togetherApiKey") (JStr "");
                 groqApiKey :=
                   js_or (field_of backendSettings "groqApiKey") (JStr "");
                 serverUrl := stored_url w |} in
            (Normal merged, with_settingsCache (Some merged) w2)
        | MalformedBody | AbortedBody => (Normal (fallback_settings w), w2)
        end
      else (Normal (fallback_settings w), w2)
  end.

Definition save_outcome (updates : Partial.Settings) (w : World)
  : Completion Settings * World :=
  let w1 := before_request updates w in
  let w2 := issued (save_request updates w) w1 in
  match reply w with
  | NetworkFailure => (Thrown TypeError, w2)
  | Responded r =>
      if ok r then
        match payload r with
        | JsonBody JNull | JsonBody JUndefined => (Thrown TypeError, w2)
        | JsonBody result =>
            let settings := field_of result "settings" in
            let field := field_of settings in
            let merged :=
              {| togetherApiKey :=
                   js_or (js_or (js_or (field "togetherApiKey")
                                       (own_prop (backendUpdates_of updates) "togetherApiKey"))
                                (cached_field togetherApiKey (settingsCache w)))
                         (JStr "");
                 groqApiKey :=
                   js_or (js_or (js_or (field "groqApiKey")
                                       (own_prop (backendUpdates_of updates) "groqApiKey"))
                                (cached_field groqApiKey (settingsCache w)))
                         (JStr "");
                 serverUrl := target_url updates w |} in
            (Normal merged, with_settingsCache (Some merged) w2)
        | MalformedBody => (Thrown SyntaxError, w2)
        | AbortedBody => (Thrown TypeError, w2)
        end
      else (Thrown (Error ("Failed to save settings: " +:+ statusText r)), w2)
  end.

(** ** Vocabulary of the statements *)

(** The request about to be issued meets a network failure or a non-success
    HTTP status. *)
Definition request_fails (w : World) : Prop :=
  reply w = NetworkFailure \/ exists r, reply w = Responded r /\ ok r = false.

(** ... or comes back with a body that cannot be parsed. *)
Definition unusable_reply (w : World) : Prop :=
  request_fails w \/
  exists r, reply w = Responded r /\
            (payload r = MalformedBody \/ payload r = AbortedBody).

(** The request about to be issued is answered with a success status and
    the JSON value [v], which is not [null]. *)
Definition answers_json (w : World) (v : JsVal) : Prop :=
  exists r, reply w = Responded r /\ ok r = true /\ payload r = JsonBody v /\
            v <> JNull /\ v <> JUndefined.

(** Two worlds that differ at most in what the backend answers, in the
    cache and in the request log. *)
Definition same_local_state (w1 w2 : World) : Prop :=
  window_defined (host w1) = window_defined (host w2) /\
  NEXT_PUBLIC_API_URL (host w1) = NEXT_PUBLIC_API_URL (host w2) /\
  storage_denied (host w1) = storage_denied (host w2) /\
  storage_full (host w1) = storage_full (host w2) /\
  localStorage w1 = localStorage w2.

(** A key as the [Settings] interface declares it: a string, or absent. *)
Definition string_or_absent (v : JsVal) : bool :=
  match v with
  | JUndefined | JNull | JStr _ => true
  | _ => false
  end.

Definition string_field (v : JsVal) : option string :=
  match v with
  | JStr s => Some s
  | _ => None
  end.

Definition present_nonempty (candidate : option string) : bool :=
  match candidate with
  | Some s => negb (String.eqb s "")
  | None => false
  end.

(** The first candidate that is present and non-empty, else the empty string. *)
Fixpoint fallback_chain (candidates : list (option string)) : string :=
  match candidates with
  | [] => ""
  | candidate :: rest =>
      if present_nonempty candidate then default "" candidate
      else fallback_chain rest
  end.

(** A number below 100 written with exactly two digits. *)
Definition two_digits (n : Z) : string :=
  let m := Z.to_N n in
  String (digit_char (m / 10)) (String (digit_char (m mod 10)) "").

(** A number below 10000 written with exactly four digits. *)
Definition four_digits (n : Z) : string :=
  let m := Z.to_N n in
  String (digit_char (m / 1000))
    (String (digit_char (m / 100 mod 10))
       (String (digit_char (m / 10 mod 10))
          (String (digit_char (m mod 10)) ""))).

(** [YYYY-MM-DD]. *)
Definition iso_date (year month day : Z) : string :=
  four_digits year +:+ "-" +:+ two_digits month +:+ "-" +:+ two_digits day.

(** The value of the header [name] of a request, if it is set. *)
Definition header_value (name : string) (req : Request) : option string :=
  snd <$> List.find (fun h => String.eqb (fst h) name) (headers req).

(** ** Sample worlds *)

(** Just after midnight on 1 January 2026 in a time zone ahead of UTC. *)
Definition new_year_morning : Date :=
  {| getFullYear := 2026; getMonth := 0; getDate := 1;
     getUTCFullYear := 2025; getUTCMonth := 11; getUTCDate := 31 |}.

Definition browser (answer : FetchOutcome) : Host :=
  {| window_defined := true; NEXT_PUBLIC_API_URL := None;
     storage_denied := false; storage_full := false;
     clock := new_year_morning; backend := fun _ => answer;
     engine_number_text := fun _ => "1e+21" |}.

(** Server-side rendering: no [window]. *)
Definition server_side (answer : FetchOutcome) : Host :=
  {| window_defined := false; NEXT_PUBLIC_API_URL := None;
     storage_denied := false; storage_full := false;
     clock := new_year_morning; backend := fun _ => answer;
     engine_number_text := fun _ => "1e+21" |}.

(** A browser that refuses access to [localStorage]. *)
Definition locked_browser (answer : FetchOutcome) : Host :=
  {| window_defined := true; NEXT_PUBLIC_API_URL := None;
     storage_denied := true; storage_full := false;
     clock := new_year_morning; backend := fun _ => answer;
     engine_number_text := fun _ => "1e+21" |}.

Definition fresh (h : Host) : World :=
  {| host := h; localStorage := ∅; settingsCache := None; sent := [];
     journal := [] |}.

Definition ok_json (v : JsVal) : FetchOutcome :=
  Responded {| status := 200; statusText := "OK"; payload := JsonBody v |}.

Definition server_error : FetchOutcome :=
  Responded {| status := 500; statusText := "Internal Server Error";
               payload := JsonBody (JObj [("error", JStr "boom")]) |}.

Definition only_serverUrl (newUrl : string) : Partial.Settings :=
  {| Partial.togetherApiKey := None; Partial.groqApiKey := None;
     Partial.serverUrl := Some newUrl |}.

Definition no_updates : Partial.Settings :=
  {| Partial.togetherApiKey := None; Partial.groqApiKey := None;
     Partial.serverUrl := None |}.

(** A settings answer that also names a server URL of its own. *)
Definition hostile_body : JsVal :=
  JObj [("togetherApiKey", JStr "k1"); ("serverUrl", JStr "http://evil.example")].

(** An answer to a save that only knows the second key. *)
Definition partial_answer : JsVal :=
  JObj [("settings", JObj [("groqApiKey", JStr "g2")])].

Definition known_keys : Settings :=
  {| togetherApiKey := JStr "t1"; groqApiKey := JStr "g1";
     serverUrl := "http://localhost:8000" |}.

(** ** The dashboard page *)

(** The props [DashboardPage] hands to [DailyPlannerClient]. *)
Record DailyPlannerClientProps : Type := {
  initialPlanResponse : JsVal;
  availableDates : JsVal;
  initialSelectedDate : string
}.

Definition DashboardPage : Async DailyPlannerClientProps :=
  let* now := new_Date in
  let today :=
    String_of_number (getFullYear now) +:+ "-" +:+
    padStart (String_of_number (getMonth now + 1)) 2 "0" +:+ "-" +:+
    padStart (String_of_number (getDate now)) 2 "0" in
  ret {| initialPlanResponse := JNull; availableDates := JNull;
         initialSelectedDate := today |}.

(** ** Vocabulary of the further properties *)

(** The calls that reach [fetch]. *)
Definition issues_request (c : Call) : bool :=
  match c with
  | CallLoadSettings | CallSaveSettings _ | CallCaptureContext _
  | CallGetDailyPlan _ | CallGetTodayPlan | CallGenerateDailyPlan _
  | CallGetAvailableDates | CallGenerateMissingPlans
  | CallToggleTaskCompletion _ _ _ => true
  | CallGetBaseUrl | CallClearSettingsCache | CallGetCachedSettings
  | CallResetServerUrl | CallRefreshApiSettings => false
  end.

(** A key as [x || ''] leaves it: the empty string, or a truthy value. *)
Definition settled_key (v : JsVal) : bool :=
  match v with
  | JStr _ => true
  | _ => truthy v
  end.

Definition keys_settled (c : option Settings) : bool :=
  match c with
  | Some s => settled_key (togetherApiKey s) && settled_key (groqApiKey s)
  | None => true
  end.

Definition is_string (v : JsVal) : bool :=
  match v with
  | JStr _ => true
  | _ => false
  end.

Definition keys_are_strings (c : option Settings) : bool :=
  match c with
  | Some s => is_string (togetherApiKey s) && is_string (groqApiKey s)
  | None => true
  end.

(** Both keys of [v] are strings or absent. *)
Definition typed_keys (v : JsVal) : bool :=
  string_or_absent (field_of v "togetherApiKey")
  && string_or_absent (field_of v "groqApiKey").

(** An outcome whose JSON body, if any, carries keys as the [Settings]
    interface declares them, at top level (the answer to a load) and under
    [settings] (the answer to a save). *)
Definition typed_outcome (o : FetchOutcome) : bool :=
  match o with
  | Responded r =>
      match payload r with
      | JsonBody v => typed_keys v && typed_keys (field_of v "settings")
      | _ => true
      end
  | NetworkFailure => true
  end.

(** A browser that already stored a server URL, with blanks around it. *)
Definition returning_visitor (answer : FetchOutcome) : World :=
  {| host := browser answer;
     localStorage := {[ SERVER_URL_KEY := "  http://planner.example  " ]};
     settingsCache := None; sent := []; journal := [] |}.

(** * Properties *)

(** ** Strings *)

Lemma trimEnd_idem (s : string) : trimEnd (trimEnd s) = trimEnd s.
Proof.
  induction s as [|c r IH]; simpl; [reflexivity|].
  destruct (trimEnd r) as [|c' k] eqn:E.
  - destruct (is_js_space c) eqn:Hc; simpl; [reflexivity|]. now rewrite Hc.
  - simpl in *. now rewrite IH.
Qed.

Lemma trimEnd_head (c : ascii) (r : string) :
  is_js_space c = false -> exists r', trimEnd (String c r) = String c r'.
Proof.
  intros Hc. simpl. destruct (trimEnd r); [rewrite Hc|]; eauto.
Qed.

Lemma trimStart_head (s : string) :
  trimStart s = "" \/
  exists c r, trimStart s = String c r /\ is_js_space c = false.
Proof.
  induction s as [|c r IH]; simpl; [now left|].
  destruct (is_js_space c) eqn:Hc; [exact IH|]. right. eauto.
Qed.

Lemma trim_idem (s : string) : trim (trim s) = trim s.
Proof.
  unfold trim.
  destruct (trimStart_head s) as [->|(c & r & -> & Hc)]; [reflexivity|].
  destruct (trimEnd_head c r Hc) as [r' Hr'].
  rewrite Hr' at 1. simpl trimStart. rewrite Hc. rewrite <- Hr'.
  apply trimEnd_idem.
Qed.

Lemma str_or_nonempty (s d : string) : s <> "" -> str_or s d = s.
Proof. intros H. unfold str_or. now rewrite (proj2 (String.eqb_neq s "") H). Qed.

(** Arithmetic with division and remainder by a constant. *)
Ltac div_lia := zify; Z.div_mod_to_equations; lia.

Lemma decimal_digits_small (fuel : nat) (n : N) (acc : string) :
  (n < 10)%N -> decimal_digits fuel n acc = String (digit_char n) acc.
Proof.
  intros Hn. destruct fuel; cbn [decimal_digits];
    rewrite N.mod_small by exact Hn; [reflexivity|].
  now rewrite N.div_small.
Qed.

Lemma decimal_digits_step (fuel : nat) (n : N) (acc : string) :
  (10 <= n)%N ->
  decimal_digits (S fuel) n acc =
  decimal_digits fuel (n / 10) (String (digit_char (n mod 10)) acc).
Proof.
  intros Hn. cbn [decimal_digits].
  destruct (N.eqb_spec (n / 10) 0) as [H0|]; [|reflexivity].
  exfalso. div_lia.
Qed.

(** The fuel [String_of_N] starts with covers the digits of [n]. *)
Lemma size_covers_digits (n bound : N) :
  (bound <= n)%N -> (0 < bound)%N ->
  (N.to_nat (N.size bound) <= N.to_nat (N.size n))%nat.
Proof.
  intros Hb Hpos.
  rewrite !N.size_log2 by lia.
  pose proof (N.log2_le_mono bound n Hb). lia.
Qed.

Lemma String_of_N_two_digits (m : N) :
  (10 <= m < 100)%N ->
  String_of_N m = String (digit_char (m / 10)) (String (digit_char (m mod 10)) "").
Proof.
  intros Hm. unfold String_of_N.
  pose proof (size_covers_digits m 10 (proj1 Hm) eq_refl) as Hfuel.
  cbn in Hfuel.
  destruct (N.to_nat (N.size m)) as [|fuel]; [lia|].
  rewrite decimal_digits_step by lia.
  apply decimal_digits_small. div_lia.
Qed.

Lemma String_of_N_four_digits (m : N) :
  (1000 <= m < 10000)%N ->
  String_of_N m =
  String (digit_char (m / 1000))
    (String (digit_char (m / 100 mod 10))
       (String (digit_char (m / 10 mod 10))
          (String (digit_char (m mod 10)) ""))).
Proof.
  intros Hm. unfold String_of_N.
  pose proof (size_covers_digits m 1000 (proj1 Hm) eq_refl) as Hfuel.
  cbn in Hfuel.
  destruct (N.to_nat (N.size m)) as [|[|[|fuel]]]; [lia..|].
  rewrite !decimal_digits_step by div_lia.
  rewrite decimal_digits_small by div_lia.
  now rewrite !N.Div0.div_div.
Qed.

Lemma padStart_two_digits (n : Z) :
  (0 <= n <= 99)%Z -> padStart (String_of_number n) 2 "0" = two_digits n.
Proof.
  intros Hn. unfold String_of_number, two_digits.
  destruct (Z.ltb_spec n 0) as [|_]; [lia|].
  rewrite Zabs2N.abs_N_nonneg by lia.
  destruct (N.lt_ge_cases (Z.to_N n) 10) as [Hone|Htwo].
  - unfold String_of_N. rewrite decimal_digits_small by exact Hone.
    rewrite N.div_small, N.mod_small by exact Hone. reflexivity.
  - rewrite String_of_N_two_digits by lia. reflexivity.
Qed.

Lemma String_of_number_four_digits (n : Z) :
  (1000 <= n <= 9999)%Z -> String_of_number n = four_digits n.
Proof.
  intros Hn. unfold String_of_number, four_digits.
  destruct (Z.ltb_spec n 0) as [|_]; [lia|].
  rewrite Zabs2N.abs_N_nonneg by lia.
  apply String_of_N_four_digits. lia.
Qed.

(** ** Property reads *)

Lemma optional_member_eq (v : JsVal) (k : string) (w : World) :
  optional_member v k w = (Normal (field_of v k), w).
Proof. destruct v; reflexivity. Qed.

Lemma backendUpdates_fields (updates : Partial.Settings) (k : string) (val : JsVal) :
  In (k, val) (backendUpdates_of updates) <->
  (exists key, k = "togetherApiKey" /\ val = JStr key /\
               Partial.togetherApiKey updates = Some key) \/
  (exists key, k = "groqApiKey" /\ val = JStr key /\
               Partial.groqApiKey updates = Some key).
Proof.
  unfold backendUpdates_of.
  destruct (Partial.togetherApiKey updates) as [t|],
           (Partial.groqApiKey updates) as [g|]; cbn; split.
  all: intros H.
  all: repeat match goal with
         | H : _ \/ _ |- _ => destruct H
         | H : ex _ |- _ => destruct H as (? & ? & ? & ?)
         | H : (_, _) = (_, _) |- _ => injection H as <- <-
         | H : Some _ = Some _ |- _ => injection H as <-
         | H : False |- _ => destruct H
         end; subst; try discriminate; eauto 6.
Qed.

Lemma backendUpdates_together (updates : Partial.Settings) :
  own_prop (backendUpdates_of updates) "togetherApiKey" =
  match Partial.togetherApiKey updates with Some k => JStr k | None => JUndefined end.
Proof.
  unfold backendUpdates_of.
  now destruct (Partial.togetherApiKey updates), (Partial.groqApiKey updates).
Qed.

Lemma backendUpdates_groq (updates : Partial.Settings) :
  own_prop (backendUpdates_of updates) "groqApiKey" =
  match Partial.groqApiKey updates with Some k => JStr k | None => JUndefined end.
Proof.
  unfold backendUpdates_of.
  now destruct (Partial.togetherApiKey updates), (Partial.groqApiKey updates).
Qed.

(** The chain of [||] on keys that are strings or absent picks the first
    non-empty one. *)
Lemma js_or_chain (a c : JsVal) (b : option string) (field : string)
    (props : list (string * JsVal)) :
  string_or_absent a = true -> string_or_absent c = true ->
  own_prop props field = match b with Some k => JStr k | None => JUndefined end ->
  js_or (js_or (js_or a (own_prop props field)) c) (JStr "") =
  JStr (fallback_chain [string_field a; b; string_field c]).
Proof.
  intros Ha Hc ->. unfold js_or.
  destruct a as [| | | |ka| |], b as [kb|], c as [| | | |kc| |];
    try discriminate; cbn.
  all: repeat match goal with
         | |- context [String.eqb ?k ""] =>
             let E := fresh "E" in
             destruct (String.eqb k "") eqn:E; cbn; rewrite ?E; cbn
         end; congruence.
Qed.

(** ** The settings resolver, step by step *)

Lemma getStoredServerUrl_eq (w : World) :
  getStoredServerUrl w = (Normal (stored_url w), w).
Proof.
  unfold getStoredServerUrl, stored_url, bind, try_catch,
    typeof_window_undefined, localStorage_getItem, ret.
  destruct (window_defined (host w)); simpl; [|reflexivity].
  destruct (storage_denied (host w)); simpl; [reflexivity|].
  destruct (localStorage w !! SERVER_URL_KEY) as [stored|]; simpl; [|reflexivity].
  unfold str_or.
  destruct (String.eqb_spec stored "") as [->|Hne]; simpl; [reflexivity|].
  destruct (String.eqb (trim stored) ""); reflexivity.
Qed.

Lemma getBaseUrl_eq (w : World) : getBaseUrl w = (Normal (stored_url w), w).
Proof. unfold getBaseUrl, bind. now rewrite getStoredServerUrl_eq. Qed.

Lemma getBackendUrl_eq (w : World) : getBackendUrl w = (Normal (stored_url w), w).
Proof.
  unfold getBackendUrl, bind, typeof_window_undefined,
    process_env_NEXT_PUBLIC_API_URL, stored_url, DEFAULT_SERVER_URL.
  destruct (window_defined (host w)) eqn:Hw; cbn.
  - rewrite getBaseUrl_eq. unfold stored_url, DEFAULT_SERVER_URL. now rewrite Hw.
  - destruct (NEXT_PUBLIC_API_URL (host w)); reflexivity.
Qed.

Lemma storeServerUrl_eq (target : string) (w : World) :
  storeServerUrl target w = (Normal tt, stored target w).
Proof.
  unfold storeServerUrl, stored, storage_usable, bind, try_catch,
    typeof_window_undefined, localStorage_setItem, ret.
  destruct (window_defined (host w)); simpl; [|reflexivity].
  destruct (storage_denied (host w)); simpl; [reflexivity|].
  destruct (storage_full (host w)); reflexivity.
Qed.

Lemma stored_url_local (w1 w2 : World) :
  same_local_state w1 w2 -> stored_url w1 = stored_url w2.
Proof.
  intros (Hw & He & Hd & _ & Hs). unfold stored_url, DEFAULT_SERVER_URL.
  now rewrite Hw, He, Hd, Hs.
Qed.

Lemma target_url_local (updates : Partial.Settings) (w1 w2 : World) :
  same_local_state w1 w2 -> target_url updates w1 = target_url updates w2.
Proof.
  intros H. unfold target_url. rewrite (stored_url_local w1 w2 H).
  destruct H as (_ & He & _). unfold DEFAULT_SERVER_URL. now rewrite He.
Qed.

Lemma reply_before_request (updates : Partial.Settings) (w : World) :
  reply (before_request updates w) = reply w.
Proof.
  unfold before_request, stored.
  destruct (Partial.serverUrl updates); [|reflexivity].
  destruct (storage_usable w); reflexivity.
Qed.

Lemma settingsCache_before_request (updates : Partial.Settings) (w : World) :
  settingsCache (before_request updates w) = settingsCache w.
Proof.
  unfold before_request, stored.
  destruct (Partial.serverUrl updates); [|reflexivity].
  destruct (storage_usable w); reflexivity.
Qed.

Lemma sent_before_request (updates : Partial.Settings) (w : World) :
  sent (before_request updates w) = sent w.
Proof.
  unfold before_request, stored.
  destruct (Partial.serverUrl updates); [|reflexivity].
  destruct (storage_usable w); reflexivity.
Qed.

Lemma host_before_request (updates : Partial.Settings) (w : World) :
  host (before_request updates w) = host w.
Proof.
  unfold before_request, stored.
  destruct (Partial.serverUrl updates); [|reflexivity].
  destruct (storage_usable w); reflexivity.
Qed.

Lemma choose_target_eq (updates : Partial.Settings) (w : World) :
  choose_target updates w = (Normal (target_url updates w), before_request updates w).
Proof.
  unfold choose_target, before_request, target_url.
  destruct (Partial.serverUrl updates) as [newUrl|].
  - unfold bind. rewrite storeServerUrl_eq. reflexivity.
  - apply getStoredServerUrl_eq.
Qed.

(** ** Tactics *)

(** Runs a computation up to the next point where a case analysis is needed. *)
Ltac step_async :=
  repeat first
    [ rewrite getStoredServerUrl_eq
    | rewrite optional_member_eq
    | progress unfold bind, ret, throw, member, try_catch, fetch, response_json,
        response_text, read_settingsCache, write_settingsCache
    | progress cbn beta iota ].


(** Runs an API helper on each kind of reply; [r] names the response. *)
Ltac step_sent w :=
  unfold try_catch, bind; rewrite getBackendUrl_eq;
  unfold fetch, plan_if_ok, response_json, response_text, bind, member, ret, throw;
  destruct (reply w) as [|?r]; [|destruct (ok r); destruct (payload r) as [[]| |]];
  cbn;
  repeat match goal with
    | |- context [if ?b then _ else _] => destruct b; cbn
    end;
  eexists; split; reflexivity.

(** Runs an API helper on a reply that is unusable by [Hbad]. *)
Ltac step_api Hbad :=
  unfold try_catch; unfold bind at 1; rewrite getBackendUrl_eq;
  unfold bind at 1; unfold fetch;
  destruct Hbad as [[-> | (r & -> & Hok)] | (r & -> & [Hbody | Hbody])];
  [ | rewrite Hok | destruct (ok r) | destruct (ok r) ];
  cbn [negb]; unfold bind, response_json, response_text;
  try rewrite Hbody; try (destruct (payload r) as [[]| |]); cbn; eauto.

Lemma loadSettings_eq (w : World) : loadSettings w = load_outcome w.
Proof.
  unfold loadSettings, load_outcome, fallback_settings.
  unfold try_catch, bind at 1. rewrite getStoredServerUrl_eq.
  unfold bind at 1, fetch. fold (load_request w).
  destruct (reply w) as [|r]; [step_async; reflexivity|].
  destruct (ok r); cbn [negb]; [|step_async; reflexivity].
  unfold response_json.
  destruct (payload r) as [v| |]; [|step_async; reflexivity..].
  destruct v; step_async; reflexivity.
Qed.

Lemma saveSettings_eq (updates : Partial.Settings) (w : World) :
  saveSettings updates w = save_outcome updates w.
Proof.
  unfold saveSettings, save_outcome, try_catch.
  unfold bind at 1. fold (choose_target updates). rewrite choose_target_eq.
  unfold bind at 1. unfold fetch. rewrite reply_before_request.
  fold (save_request updates w).
  destruct (reply w) as [|r]; [reflexivity|].
  destruct (ok r); simpl; [|reflexivity].
  unfold response_json.
  destruct (payload r) as [result| |]; try reflexivity.
  destruct result; try reflexivity.
  all: repeat first
         [ rewrite optional_member_eq
         | progress unfold bind, ret, throw, member, read_settingsCache, write_settingsCache
         | progress cbn beta iota ].
  all: cbn; rewrite ?settingsCache_before_request; reflexivity.
Qed.

Lemma saveSettings_frame (updates : Partial.Settings) (w : World) :
  let w' := snd (saveSettings updates w) in
  host w' = host w /\
  localStorage w' = localStorage (before_request updates w) /\
  sent w' = save_request updates w :: sent w.
Proof.
  rewrite saveSettings_eq. unfold save_outcome.
  destruct (reply w) as [|r]; [|destruct (ok r); [destruct (payload r) as [[]| |]|]];
    cbn; rewrite host_before_request, sent_before_request; auto.
Qed.

Lemma loadSettings_serverUrl (w : World) (s : Settings) (w' : World) :
  loadSettings w = (Normal s, w') -> serverUrl s = stored_url w.
Proof.
  rewrite loadSettings_eq. unfold load_outcome, fallback_settings.
  destruct (reply w) as [|r]; [now intros [= <- _]|].
  destruct (ok r); [|now intros [= <- _]].
  destruct (payload r) as [[]| |]; now intros [= <- _].
Qed.

Lemma saveSettings_serverUrl (updates : Partial.Settings) (w : World)
    (s : Settings) (w' : World) :
  saveSettings updates w = (Normal s, w') -> serverUrl s = target_url updates w.
Proof.
  rewrite saveSettings_eq. unfold save_outcome.
  destruct (reply w) as [|r]; [discriminate|].
  destruct (ok r); [|discriminate].
  destruct (payload r) as [[]| |]; try discriminate; now intros [= <- _].
Qed.

Lemma loadSettings_success (w : World) (v : JsVal) :
  answers_json w v ->
  exists s,
    loadSettings w =
      (Normal s, with_settingsCache (Some s) (issued (load_request w) w)) /\
    togetherApiKey s = js_or (field_of v "togetherApiKey") (JStr "") /\
    groqApiKey s = js_or (field_of v "groqApiKey") (JStr "") /\
    serverUrl s = stored_url w.
Proof.
  intros (r & Hr & Hok & Hp & Hn & Hu). rewrite loadSettings_eq.
  unfold load_outcome. rewrite Hr, Hok, Hp.
  destruct v; try congruence; eexists; repeat split.
Qed.

Lemma saveSettings_success (updates : Partial.Settings) (w : World) (v : JsVal) :
  answers_json w v ->
  exists s,
    saveSettings updates w =
      (Normal s,
       with_settingsCache (Some s)
         (issued (save_request updates w) (before_request updates w))) /\
    togetherApiKey s =
      js_or (js_or (js_or (field_of (field_of v "settings") "togetherApiKey")
                          (own_prop (backendUpdates_of updates) "togetherApiKey"))
                   (cached_field togetherApiKey (settingsCache w))) (JStr "") /\
    groqApiKey s =
      js_or (js_or (js_or (field_of (field_of v "settings") "groqApiKey")
                          (own_prop (backendUpdates_of updates) "groqApiKey"))
                   (cached_field groqApiKey (settingsCache w))) (JStr "") /\
    serverUrl s = target_url updates w.
Proof.
  intros (r & Hr & Hok & Hp & Hn & Hu). rewrite saveSettings_eq.
  unfold save_outcome. rewrite Hr, Hok, Hp.
  destruct v; try congruence; eexists; repeat split.
Qed.

(** Once the new URL is in storage, it is what the resolver returns. *)
Lemma stored_url_after_store (target : string) (w w' : World) :
  storage_usable w = true ->
  host w' = host w ->
  localStorage w' = localStorage (stored target w) ->
  localStorage w' !! SERVER_URL_KEY = Some (trim target) /\
  stored_url w' = str_or (trim (trim target)) (DEFAULT_SERVER_URL (host w)).
Proof.
  intros Hu Hh Hs. unfold stored in Hs. rewrite Hu in Hs. cbn in Hs.
  assert (Hl : localStorage w' !! SERVER_URL_KEY = Some (trim target)).
  { rewrite Hs. apply lookup_insert_eq. }
  split; [exact Hl|].
  unfold stored_url. rewrite Hh, Hl.
  unfold storage_usable in Hu.
  destruct (window_defined (host w)); [|discriminate].
  destruct (storage_denied (host w)); [discriminate|]. reflexivity.
Qed.

(** ** Requests of the API helpers and of the settings resolver *)

Lemma api_requests_carry_ngrok_header (w : World) :
  let tagged (w' : World) :=
    exists req, sent w' = req :: sent w /\
                header_value "ngrok-skip-browser-warning" req = Some "69420" in
  (forall content, tagged (snd (captureContext content w))) /\
  (forall dateStr, tagged (snd (getDailyPlan dateStr w))) /\
  tagged (snd (getTodayPlan w)) /\
  (forall dateStr, tagged (snd (generateDailyPlan dateStr w))) /\
  tagged (snd (getAvailableDates w)) /\
  tagged (snd (generateMissingPlans w)) /\
  (forall taskId completed date,
      tagged (snd (toggleTaskCompletion taskId completed date w))).
Proof.
  assert (Hget : forall dateStr, exists req,
             sent (snd (getDailyPlan dateStr w)) = req :: sent w /\
             header_value "ngrok-skip-browser-warning" req = Some "69420").
  { intros dateStr. unfold getDailyPlan. step_sent w. }
  cbv zeta. repeat split; try exact Hget.
  - intros content. unfold captureContext. step_sent w.
  - unfold getTodayPlan, bind, new_Date. apply Hget.
  - intros dateStr. unfold generateDailyPlan. step_sent w.
  - unfold getAvailableDates. step_sent w.
  - unfold generateMissingPlans. step_sent w.
  - intros taskId completed date. unfold toggleTaskCompletion. step_sent w.
Qed.

Lemma settings_requests_carry_no_ngrok_header (w : World) :
  (exists req, sent (snd (loadSettings w)) = req :: sent w /\
               header_value "ngrok-skip-browser-warning" req = None) /\
  (forall updates, exists req,
      sent (snd (saveSettings updates w)) = req :: sent w /\
      header_value "ngrok-skip-browser-warning" req = None).
Proof.
  split.
  - exists (load_request w). split; [|reflexivity].
    rewrite loadSettings_eq. unfold load_outcome.
    destruct (reply w) as [|r]; [reflexivity|].
    destruct (ok r); [|reflexivity]. now destruct (payload r) as [[]| |].
  - intros updates. exists (save_request updates w). split; [|reflexivity].
    apply saveSettings_frame.
Qed.

(** * The claims *)

(** C1. After any sequence of calls, a [loadSettings] or [saveSettings] that
    completes successfully caches and returns a value whose [serverUrl] is
    the URL resolved from local storage (for a save that carries a new
    server URL: that URL trimmed, or the default when nothing is left).
    The backend has no say in it: two worlds with the same local state
    cache the same [serverUrl] whatever their backends answer, so a
    [serverUrl] field in the response is never what ends up in the cache. *)
Theorem cached_serverUrl_is_local (calls : list Call) (w0 : World) (v : JsVal) :
  let w := after_all calls w0 in
  answers_json w v ->
  (exists (s : Settings) (w' : World),
      loadSettings w = (Normal s, w') /\ settingsCache w' = Some s /\
      getBaseUrl w = (Normal (serverUrl s), w)) /\
  (forall updates, exists (s : Settings) (w' : World),
      saveSettings updates w = (Normal s, w') /\ settingsCache w' = Some s /\
      match Partial.serverUrl updates with
      | Some newUrl =>
          serverUrl s = str_or (trim newUrl) (DEFAULT_SERVER_URL (host w))
      | None => getBaseUrl w = (Normal (serverUrl s), w)
      end) /\
  (forall (w2 : World) (s s2 : Settings) (wa wb : World),
      same_local_state w w2 ->
      (loadSettings w = (Normal s, wa) -> loadSettings w2 = (Normal s2, wb) ->
       serverUrl s = serverUrl s2) /\
      (forall updates,
          saveSettings updates w = (Normal s, wa) ->
          saveSettings updates w2 = (Normal s2, wb) ->
          serverUrl s = serverUrl s2)).
Proof.
  intros w Hjson. split; [|split].
  - destruct (loadSettings_success w v Hjson) as (s & Hs & _ & _ & Hurl).
    eexists s, _. split; [exact Hs|]. split; [reflexivity|].
    now rewrite getBaseUrl_eq, Hurl.
  - intros updates.
    destruct (saveSettings_success updates w v Hjson) as (s & Hs & _ & _ & Hurl).
    eexists s, _. split; [exact Hs|]. split; [reflexivity|].
    unfold target_url in Hurl.
    destruct (Partial.serverUrl updates); [exact Hurl|].
    now rewrite getBaseUrl_eq, Hurl.
  - intros w2 s s2 wa wb Hlocal. split.
    + intros H1 H2. apply loadSettings_serverUrl in H1, H2.
      rewrite H1, H2. now apply stored_url_local.
    + intros updates H1 H2. apply saveSettings_serverUrl in H1, H2.
      rewrite H1, H2. now apply target_url_local.
Qed.

(** A browser that stored [http://x], cleared the cache, and whose backend
    answers with a server URL of its own: the load caches [http://x]. *)
Lemma cached_serverUrl_is_local_witness :
  let w := after_all [CallSaveSettings (only_serverUrl " http://x ");
                      CallClearSettingsCache]
                     (fresh (browser (ok_json hostile_body))) in
  answers_json w hostile_body /\
  exists (s : Settings) (w' : World),
    loadSettings w = (Normal s, w') /\ settingsCache w' = Some s /\
    getBaseUrl w = (Normal (serverUrl s), w).
Proof.
  intros w.
  assert (H : answers_json w hostile_body).
  { eexists. repeat split; try reflexivity; discriminate. }
  split; [exact H|].
  exact (proj1 (cached_serverUrl_is_local
                  [CallSaveSettings (only_serverUrl " http://x ");
                   CallClearSettingsCache]
                  (fresh (browser (ok_json hostile_body))) hostile_body H)).
Defined.

(** C2. When the request meets a network failure, a non-success status or a
    body that cannot be parsed, every API helper completes normally:
    [captureContext] with an object whose [ok] is [false], the others with
    [null]. *)
Theorem api_client_failure_returns_null (w : World) :
  unusable_reply w ->
  (forall content, exists (message : JsVal) (w' : World),
      captureContext content w =
        (Normal (JObj [("ok", JBool false); ("error", message)]), w')) /\
  (forall dateStr, exists w', getDailyPlan dateStr w = (Normal JNull, w')) /\
  (exists w', getTodayPlan w = (Normal JNull, w')) /\
  (forall dateStr, exists w', generateDailyPlan dateStr w = (Normal JNull, w')) /\
  (exists w', getAvailableDates w = (Normal JNull, w')) /\
  (exists w', generateMissingPlans w = (Normal JNull, w')) /\
  (forall taskId completed date, exists w',
      toggleTaskCompletion taskId completed date w = (Normal JNull, w')).
Proof.
  intros Hbad.
  assert (Hget : forall dateStr, exists w', getDailyPlan dateStr w = (Normal JNull, w')).
  { intros dateStr. unfold getDailyPlan. step_api Hbad. }
  repeat split; try exact Hget.
  - intros content. unfold captureContext. step_api Hbad.
  - unfold getTodayPlan, bind, new_Date. apply Hget.
  - intros dateStr. unfold generateDailyPlan. step_api Hbad.
  - unfold getAvailableDates. step_api Hbad.
  - unfold generateMissingPlans. step_api Hbad.
  - intros taskId completed date. unfold toggleTaskCompletion. step_api Hbad.
Qed.

(** The backend answers 500. *)
Lemma api_client_failure_returns_null_witness :
  unusable_reply (fresh (browser server_error)) /\
  exists w', getAvailableDates (fresh (browser server_error)) = (Normal JNull, w').
Proof.
  assert (H : unusable_reply (fresh (browser server_error))).
  { left. right. eexists. split; reflexivity. }
  split; [exact H|].
  exact (proj1 (proj2 (proj2 (proj2 (proj2
           (api_client_failure_returns_null (fresh (browser server_error)) H)))))).
Defined.

(** C3. When the request of [loadSettings] meets a network failure or a
    non-success status, the call completes normally and returns empty keys
    together with the URL resolved from local storage. *)
Theorem loadSettings_failure_returns_fallback (w : World) :
  request_fails w ->
  exists (resolved : string) (w' : World),
    getBaseUrl w = (Normal resolved, w) /\
    loadSettings w =
      (Normal {| togetherApiKey := JStr ""; groqApiKey := JStr "";
                 serverUrl := resolved |}, w').
Proof.
  intros Hfail. exists (stored_url w).
  rewrite getBaseUrl_eq, loadSettings_eq. unfold load_outcome, fallback_settings.
  destruct Hfail as [-> | (r & -> & ->)]; eauto.
Qed.

Lemma loadSettings_failure_returns_fallback_witness :
  request_fails (fresh (browser NetworkFailure)) /\
  exists (resolved : string) (w' : World),
    getBaseUrl (fresh (browser NetworkFailure))
      = (Normal resolved, fresh (browser NetworkFailure)) /\
    loadSettings (fresh (browser NetworkFailure)) =
      (Normal {| togetherApiKey := JStr ""; groqApiKey := JStr "";
                 serverUrl := resolved |}, w').
Proof.
  assert (H : request_fails (fresh (browser NetworkFailure))) by (left; reflexivity).
  split; [exact H|].
  exact (loadSettings_failure_returns_fallback (fresh (browser NetworkFailure)) H).
Defined.

(** C4, as amended.  For a [saveSettings] that carries a new server URL, the
    target is that URL trimmed, or the default if nothing is left; the save
    request goes to the target and its body holds exactly the key fields
    that were present in the update, never a [serverUrl].  Where
    [localStorage] can be written (a browser, access granted, quota not
    exceeded) the trimmed target is what storage holds afterwards and what
    the resolver then returns (the default, should the trimmed target be
    empty); in particular a new URL that is not blank is returned trimmed.
    Where [localStorage] cannot be written, nothing is persisted: storage is
    as it was and the resolver returns what it returned before the call. *)
Theorem saveSettings_new_serverUrl_in_browser
    (updates : Partial.Settings) (newUrl : string) (w : World) :
  Partial.serverUrl updates = Some newUrl ->
  let target := str_or (trim newUrl) (DEFAULT_SERVER_URL (host w)) in
  let w' := snd (saveSettings updates w) in
  (exists (req : Request) (fields : list (string * JsVal)),
      sent w' = req :: sent w /\
      url req = target +:+ "/api/settings" /\ method req = "POST" /\
      body req = Some (JObj fields) /\
      (forall k val, In (k, val) fields <->
         (exists key, k = "togetherApiKey" /\ val = JStr key /\
                      Partial.togetherApiKey updates = Some key) \/
         (exists key, k = "groqApiKey" /\ val = JStr key /\
                      Partial.groqApiKey updates = Some key)) /\
      own_prop fields "serverUrl" = JUndefined) /\
  (storage_usable w = true ->
     localStorage w' !! SERVER_URL_KEY = Some (trim target) /\
     getBaseUrl w' =
       (Normal (str_or (trim target) (DEFAULT_SERVER_URL (host w))), w') /\
     (trim newUrl <> "" ->
        localStorage w' !! SERVER_URL_KEY = Some (trim newUrl) /\
        getBaseUrl w' = (Normal (trim newUrl), w'))) /\
  (storage_usable w = false ->
     localStorage w' = localStorage w /\
     fst (getBaseUrl w') = fst (getBaseUrl w)).
Proof.
  intros Hnew target w'.
  destruct (saveSettings_frame updates w) as (Hh & Hs & Hsent).
  fold w' in Hh, Hs, Hsent.
  assert (Ht : target_url updates w = target).
  { unfold target_url. now rewrite Hnew. }
  unfold before_request in Hs. rewrite Hnew, Ht in Hs.
  split; [|split].
  - exists (save_request updates w), (backendUpdates_of updates).
    split; [exact Hsent|]. cbn. rewrite Ht.
    repeat split; try apply backendUpdates_fields.
    unfold backendUpdates_of.
    now destruct (Partial.togetherApiKey updates), (Partial.groqApiKey updates).
  - intros Hu.
    destruct (stored_url_after_store target w w' Hu Hh Hs) as (Hl & Hr).
    split; [exact Hl|].
    split; [now rewrite getBaseUrl_eq, Hr, trim_idem|].
    intros Hne.
    assert (Htt : trim target = trim newUrl).
    { unfold target. rewrite str_or_nonempty by exact Hne. apply trim_idem. }
    split; [now rewrite <- Htt|].
    rewrite getBaseUrl_eq, Hr, Htt, trim_idem. now rewrite str_or_nonempty.
  - intros Hu. unfold stored in Hs. rewrite Hu in Hs.
    split; [exact Hs|].
    rewrite !getBaseUrl_eq. cbn. unfold stored_url. now rewrite Hh, Hs.
Qed.

(** In a browser, saving [" http://x "] stores ["http://x"], and the
    resolver returns it; rendered on the server, the same call leaves
    storage as it was. *)
Lemma saveSettings_new_serverUrl_in_browser_witness :
  let w := fresh (browser (ok_json (JObj []))) in
  let w' := snd (saveSettings (only_serverUrl " http://x ") w) in
  let v := fresh (server_side (ok_json (JObj []))) in
  let v' := snd (saveSettings (only_serverUrl " http://x ") v) in
  Partial.serverUrl (only_serverUrl " http://x ") = Some " http://x " /\
  (storage_usable w = true /\
   localStorage w' !! SERVER_URL_KEY = Some "http://x" /\
   getBaseUrl w' = (Normal "http://x", w')) /\
  (storage_usable v = false /\
   localStorage v' = localStorage v /\
   fst (getBaseUrl v') = fst (getBaseUrl v)).
Proof.
  intros w w' v v'.
  split; [reflexivity|]. split.
  - split; [reflexivity|].
    apply (proj1 (proj2 (saveSettings_new_serverUrl_in_browser
                           (only_serverUrl " http://x ") " http://x " w eq_refl))
                 eq_refl).
    discriminate.
  - split; [reflexivity|].
    exact (proj2 (proj2 (saveSettings_new_serverUrl_in_browser
                           (only_serverUrl " http://x ") " http://x " v eq_refl))
                 eq_refl).
Defined.

(** C4 as stated fails outside the browser: rendered on the server,
    [saveSettings] with a new server URL writes nothing to storage, and the
    resolver afterwards returns the default and not the new URL. *)
Lemma saveSettings_on_server_does_not_persist :
  let w := fresh (server_side (ok_json (JObj []))) in
  let w' := snd (saveSettings (only_serverUrl " http://x ") w) in
  trim " http://x " = "http://x" /\
  localStorage w' !! SERVER_URL_KEY = None /\
  getBaseUrl w' = (Normal "http://localhost:8000", w') /\
  ~ (localStorage w' !! SERVER_URL_KEY = Some "http://x" /\
     getBaseUrl w' = (Normal "http://x", w')).
Proof.
  cbv zeta. repeat split; try reflexivity.
  intros [H _]. vm_compute in H. discriminate.
Defined.

(** C5. When the request of [saveSettings] meets a network failure or a
    non-success status, the call throws: the rejection of [fetch], or
    [Error ("Failed to save settings: " + statusText)].  In the same world
    [loadSettings] completes normally. *)
Theorem saveSettings_failure_raises (updates : Partial.Settings) (w : World) :
  request_fails w ->
  (exists (e : JsExn) (w' : World),
     saveSettings updates w = (Thrown e, w') /\
     (reply w = NetworkFailure -> e = TypeError) /\
     (forall r, reply w = Responded r ->
                e = Error ("Failed to save settings: " +:+ statusText r))) /\
  (exists (s : Settings) (w' : World), loadSettings w = (Normal s, w')).
Proof.
  intros Hfail. rewrite saveSettings_eq, loadSettings_eq.
  unfold save_outcome, load_outcome.
  destruct Hfail as [-> | (r & -> & ->)]; split; eauto.
  - eexists _, _. split; [reflexivity|]. split; [reflexivity|discriminate].
  - eexists _, _. split; [reflexivity|]. split; [discriminate|]. now intros r' [= <-].
Qed.

Lemma saveSettings_failure_raises_witness :
  request_fails (fresh (browser server_error)) /\
  exists (e : JsExn) (w' : World),
    saveSettings no_updates (fresh (browser server_error)) = (Thrown e, w') /\
    (reply (fresh (browser server_error)) = NetworkFailure -> e = TypeError) /\
    (forall r, reply (fresh (browser server_error)) = Responded r ->
               e = Error ("Failed to save settings: " +:+ statusText r)).
Proof.
  assert (H : request_fails (fresh (browser server_error))).
  { right. eexists. split; reflexivity. }
  split; [exact H|].
  exact (proj1 (saveSettings_failure_raises no_updates
                  (fresh (browser server_error)) H)).
Defined.

(** C6 fails on the code.  In a fresh browser world the request of
    [loadSettings] and the request of [saveSettings] carry no
    [ngrok-skip-browser-warning] header, while the request of an API helper
    in the same world carries it with value [69420]. *)
Theorem settings_requests_lack_ngrok_header :
  let w := fresh (browser (ok_json (JObj []))) in
  map (header_value "ngrok-skip-browser-warning") (sent (snd (loadSettings w)))
    = [None] /\
  map (header_value "ngrok-skip-browser-warning")
      (sent (snd (saveSettings no_updates w))) = [None] /\
  map (header_value "ngrok-skip-browser-warning")
      (sent (snd (getAvailableDates w))) = [Some "69420"].
Proof. cbv zeta. repeat split; vm_compute; reflexivity. Qed.

(** C7. [getTodayPlan] asks [getDailyPlan] for the date built from the local
    calendar fields of the clock: the year in decimal, the month (counted
    from 1) and the day each written with two digits, joined by hyphens;
    for a year of four digits this is [YYYY-MM-DD].  The UTC fields play no
    part. *)
Theorem getTodayPlan_uses_local_date (w : World) :
  let now := clock (host w) in
  (0 <= getMonth now <= 11)%Z ->
  (1 <= getDate now <= 31)%Z ->
  getTodayPlan w =
    getDailyPlan (String_of_number (getFullYear now) +:+ "-" +:+
                  two_digits (getMonth now + 1) +:+ "-" +:+
                  two_digits (getDate now)) w /\
  ((1000 <= getFullYear now <= 9999)%Z ->
   getTodayPlan w =
     getDailyPlan (iso_date (getFullYear now) (getMonth now + 1) (getDate now)) w).
Proof.
  intros now Hm Hd.
  assert (Hstr : today_dateStr now =
                 String_of_number (getFullYear now) +:+ "-" +:+
                 two_digits (getMonth now + 1) +:+ "-" +:+ two_digits (getDate now)).
  { unfold today_dateStr. now rewrite !padStart_two_digits by lia. }
  assert (Hrun : getTodayPlan w = getDailyPlan (today_dateStr now) w) by reflexivity.
  split; [now rewrite Hrun, Hstr|].
  intros Hy. rewrite Hrun, Hstr. unfold iso_date.
  now rewrite String_of_number_four_digits.
Qed.

(** On the morning of 1 January 2026, local time, while UTC is still in
    2025: the plan asked for is the one of [2026-01-01]. *)
Lemma getTodayPlan_uses_local_date_witness :
  let w := fresh (browser NetworkFailure) in
  (0 <= getMonth (clock (host w)) <= 11)%Z /\
  (1 <= getDate (clock (host w)) <= 31)%Z /\
  (1000 <= getFullYear (clock (host w)) <= 9999)%Z /\
  getTodayPlan w = getDailyPlan "2026-01-01" w.
Proof.
  intros w.
  assert (Hm : (0 <= getMonth (clock (host w)) <= 11)%Z) by (cbn; lia).
  assert (Hd : (1 <= getDate (clock (host w)) <= 31)%Z) by (cbn; lia).
  assert (Hy : (1000 <= getFullYear (clock (host w)) <= 9999)%Z) by (cbn; lia).
  split; [exact Hm|]. split; [exact Hd|]. split; [exact Hy|].
  exact (proj2 (getTodayPlan_uses_local_date w Hm Hd) Hy).
Defined.

(** C8, as amended.  When a [saveSettings] that carries a new server URL
    meets a network failure or a non-success status, the call throws, the
    request was issued in the world [storeServerUrl] had left, and the cache
    is what it was before the call.  Where [localStorage] can be written,
    the write of the trimmed target comes before the request, so after the
    error storage holds it and the resolver returns it (the default, should
    the trimmed target be empty); in particular a new URL that is not blank
    is returned trimmed.  Where [localStorage] cannot be written, the request
    is the only effect: storage is as it was and the resolver returns what
    it returned before the call. *)
Theorem failed_save_keeps_new_url_in_browser
    (updates : Partial.Settings) (newUrl : string) (w : World) :
  Partial.serverUrl updates = Some newUrl ->
  request_fails w ->
  let target := str_or (trim newUrl) (DEFAULT_SERVER_URL (host w)) in
  exists (e : JsExn) (w1 w' : World) (req : Request),
    storeServerUrl target w = (Normal tt, w1) /\
    saveSettings updates w = (Thrown e, w') /\
    w' = issued req w1 /\
    url req = target +:+ "/api/settings" /\
    settingsCache w' = settingsCache w /\
    getCachedSettings w' = (Normal (settingsCache w), w') /\
    (storage_usable w = true ->
       journal w' =
         RequestIssued req :: StorageWrite SERVER_URL_KEY (trim target)
                           :: journal w /\
       localStorage w1 !! SERVER_URL_KEY = Some (trim target) /\
       localStorage w' !! SERVER_URL_KEY = Some (trim target) /\
       getBaseUrl w' =
         (Normal (str_or (trim target) (DEFAULT_SERVER_URL (host w))), w') /\
       (trim newUrl <> "" ->
          localStorage w1 !! SERVER_URL_KEY = Some (trim newUrl) /\
          getBaseUrl w' = (Normal (trim newUrl), w'))) /\
    (storage_usable w = false ->
       journal w' = RequestIssued req :: journal w /\
       localStorage w' = localStorage w /\
       fst (getBaseUrl w') = fst (getBaseUrl w)).
Proof.
  intros Hnew Hfail target.
  assert (Ht : target_url updates w = target).
  { unfold target_url. now rewrite Hnew. }
  assert (Hb : before_request updates w = stored target w).
  { unfold before_request. now rewrite Hnew, Ht. }
  assert (Hc : settingsCache (stored target w) = settingsCache w).
  { rewrite <- Hb. apply settingsCache_before_request. }
  assert (Hh : host (stored target w) = host w).
  { rewrite <- Hb. apply host_before_request. }
  assert (exists e,
    saveSettings updates w =
      (Thrown e, issued (save_request updates w) (stored target w))) as [e He].
  { rewrite saveSettings_eq. unfold save_outcome. rewrite Hb.
    destruct Hfail as [-> | (r & -> & ->)]; eauto. }
  eexists e, (stored target w), _, (save_request updates w).
  split; [apply storeServerUrl_eq|]. split; [exact He|].
  split; [reflexivity|]. split; [cbn; now rewrite Ht|].
  split; [exact Hc|].
  split; [unfold getCachedSettings, read_settingsCache; cbn; now rewrite Hc|].
  split.
  - intros Hu.
    destruct (stored_url_after_store target w
                (issued (save_request updates w) (stored target w))
                Hu Hh eq_refl) as (Hl & Hr).
    split; [unfold stored; now rewrite Hu|].
    cbn in Hl. split; [exact Hl|]. split; [exact Hl|].
    split; [now rewrite getBaseUrl_eq, Hr, trim_idem|].
    intros Hne.
    assert (Htt : trim target = trim newUrl).
    { unfold target. rewrite str_or_nonempty by exact Hne. apply trim_idem. }
    split; [now rewrite <- Htt|].
    rewrite getBaseUrl_eq, Hr, Htt, trim_idem. now rewrite str_or_nonempty.
  - intros Hu. unfold stored. rewrite Hu.
    split; [reflexivity|]. split; [reflexivity|].
    now rewrite !getBaseUrl_eq.
Qed.

(** In a browser whose backend answers 500, the save of [" http://x "]
    throws after the write and the request, in that order, and leaves
    ["http://x"] in storage. *)
Lemma failed_save_keeps_new_url_in_browser_witness :
  let w := fresh (browser server_error) in
  Partial.serverUrl (only_serverUrl " http://x ") = Some " http://x " /\
  request_fails w /\
  exists (e : JsExn) (w1 w' : World) (req : Request),
    storeServerUrl "http://x" w = (Normal tt, w1) /\
    saveSettings (only_serverUrl " http://x ") w = (Thrown e, w') /\
    w' = issued req w1 /\
    url req = "http://x/api/settings" /\
    storage_usable w = true /\
    journal w' = [RequestIssued req; StorageWrite SERVER_URL_KEY "http://x"] /\
    localStorage w' !! SERVER_URL_KEY = Some "http://x" /\
    getBaseUrl w' = (Normal "http://x", w').
Proof.
  intros w.
  assert (H : request_fails w) by (right; eexists; split; reflexivity).
  split; [reflexivity|]. split; [exact H|].
  destruct (failed_save_keeps_new_url_in_browser
              (only_serverUrl " http://x ") " http://x " w eq_refl H)
    as (e & w1 & w' & req & H1 & H2 & H3 & H4 & _ & _ & Hok & _).
  destruct (Hok eq_refl) as (Hj & _ & Hl & _ & Hn).
  exists e, w1, w', req.
  split; [exact H1|]. split; [exact H2|]. split; [exact H3|].
  split; [exact H4|]. split; [reflexivity|]. split; [exact Hj|].
  split; [exact Hl|]. apply Hn. discriminate.
Defined.

(** C8 as stated fails where storage cannot be used: in a browser that
    refuses access to [localStorage], a failed save of a new server URL
    leaves storage empty, and the resolver afterwards returns the default
    and not the new URL. *)
Lemma failed_save_without_storage_keeps_old_url :
  let w := fresh (locked_browser server_error) in
  let w' := snd (saveSettings (only_serverUrl " http://x ") w) in
  (exists e, fst (saveSettings (only_serverUrl " http://x ") w) = Thrown e) /\
  localStorage w' !! SERVER_URL_KEY = None /\
  getBaseUrl w' = (Normal "http://localhost:8000", w') /\
  getBaseUrl w' <> (Normal "http://x", w').
Proof.
  cbv zeta. split; [eexists; reflexivity|]. repeat split; try reflexivity.
  intros H. vm_compute in H. discriminate.
Defined.

(** C9. When the request of [loadSettings] meets a network failure or a
    non-success status, the value the call returns is not written to the
    cache: [getCachedSettings] afterwards returns what the cache held before
    the call, [null] included. *)
Theorem loadSettings_failure_keeps_cache (w : World) :
  request_fails w ->
  exists (fallback : Settings) (w' : World),
    loadSettings w = (Normal fallback, w') /\
    settingsCache w' = settingsCache w /\
    getCachedSettings w' = (Normal (settingsCache w), w').
Proof.
  intros Hfail. rewrite loadSettings_eq. unfold load_outcome.
  destruct Hfail as [-> | (r & -> & ->)]; eauto.
Qed.

(** With keys cached and the network down, the cache keeps the keys. *)
Lemma loadSettings_failure_keeps_cache_witness :
  let w := with_settingsCache (Some known_keys) (fresh (browser NetworkFailure)) in
  request_fails w /\
  exists (fallback : Settings) (w' : World),
    loadSettings w = (Normal fallback, w') /\
    settingsCache w' = Some known_keys /\
    getCachedSettings w' = (Normal (Some known_keys), w').
Proof.
  intros w.
  assert (H : request_fails w) by (left; reflexivity).
  split; [exact H|].
  exact (loadSettings_failure_keeps_cache w H).
Defined.

(** C10. On a successful [saveSettings], with keys that are strings or
    absent in the response and in the cache, each key of the cached and
    returned value is the first present and non-empty one among: the
    response's [settings] value, the value submitted in this call, the
    previously cached value; and the empty string when there is none.  So a
    response that omits a key the update does not carry leaves a cached key
    in place. *)
Theorem saveSettings_key_fallback_chain
    (updates : Partial.Settings) (w : World) (v : JsVal) :
  answers_json w v ->
  let answered := field_of (field_of v "settings") in
  let cached field := cached_field field (settingsCache w) in
  string_or_absent (answered "togetherApiKey") = true ->
  string_or_absent (answered "groqApiKey") = true ->
  string_or_absent (cached togetherApiKey) = true ->
  string_or_absent (cached groqApiKey) = true ->
  exists (s : Settings) (w' : World),
    saveSettings updates w = (Normal s, w') /\
    settingsCache w' = Some s /\
    togetherApiKey s =
      JStr (fallback_chain [string_field (answered "togetherApiKey");
                            Partial.togetherApiKey updates;
                            string_field (cached togetherApiKey)]) /\
    groqApiKey s =
      JStr (fallback_chain [string_field (answered "groqApiKey");
                            Partial.groqApiKey updates;
                            string_field (cached groqApiKey)]) /\
    (forall known, answered "togetherApiKey" = JUndefined ->
        Partial.togetherApiKey updates = None ->
        cached togetherApiKey = JStr known -> togetherApiKey s = JStr known) /\
    (forall known, answered "groqApiKey" = JUndefined ->
        Partial.groqApiKey updates = None ->
        cached groqApiKey = JStr known -> groqApiKey s = JStr known).
Proof.
  intros Hjson answered cached Hat Hag Hct Hcg.
  destruct (saveSettings_success updates w v Hjson) as (s & Hs & Ht & Hg & _).
  fold answered in Ht, Hg. fold (cached togetherApiKey) in Ht.
  fold (cached groqApiKey) in Hg.
  rewrite (js_or_chain _ _ (Partial.togetherApiKey updates)) in Ht
    by auto using backendUpdates_together.
  rewrite (js_or_chain _ _ (Partial.groqApiKey updates)) in Hg
    by auto using backendUpdates_groq.
  eexists s, _. split; [exact Hs|]. split; [reflexivity|].
  split; [exact Ht|]. split; [exact Hg|]. split.
  - intros known Ha Hu Hc. rewrite Ht, Ha, Hu, Hc. cbn.
    now destruct (String.eqb known "") eqn:E; [apply String.eqb_eq in E as ->|].
  - intros known Ha Hu Hc. rewrite Hg, Ha, Hu, Hc. cbn.
    now destruct (String.eqb known "") eqn:E; [apply String.eqb_eq in E as ->|].
Qed.

(** Both keys cached, an empty update, a response that only knows the
    second key: the first key survives, the second is the response's. *)
Lemma saveSettings_key_fallback_chain_witness :
  let w := with_settingsCache (Some known_keys)
             (fresh (browser (ok_json partial_answer))) in
  answers_json w partial_answer /\
  exists (s : Settings) (w' : World),
    saveSettings no_updates w = (Normal s, w') /\
    settingsCache w' = Some s /\
    togetherApiKey s = JStr "t1" /\
    groqApiKey s = JStr "g2".
Proof.
  intros w.
  assert (H : answers_json w partial_answer).
  { eexists. repeat split; try reflexivity; discriminate. }
  split; [exact H|].
  destruct (saveSettings_key_fallback_chain no_updates w partial_answer H
              eq_refl eq_refl eq_refl eq_refl)
    as (s & w' & Hs & Hc & Ht & Hg & _).
  exists s, w'. repeat split; assumption.
Defined.

(** * Further properties of the settings resolver and of the API helpers *)

Lemma DEFAULT_SERVER_URL_nonempty (h : Host) : DEFAULT_SERVER_URL h <> "".
Proof.
  unfold DEFAULT_SERVER_URL, str_or.
  destruct (NEXT_PUBLIC_API_URL h) as [configured|]; [|discriminate].
  destruct (String.eqb_spec configured ""); [discriminate|assumption].
Qed.

Lemma stored_url_nonempty (w : World) : stored_url w <> "".
Proof.
  unfold stored_url.
  destruct (window_defined (host w) && negb (storage_denied (host w)));
    [|apply DEFAULT_SERVER_URL_nonempty].
  destruct (localStorage w !! SERVER_URL_KEY) as [stored|];
    [|apply DEFAULT_SERVER_URL_nonempty].
  unfold str_or. destruct (String.eqb_spec (trim stored) "");
    [apply DEFAULT_SERVER_URL_nonempty|assumption].
Qed.

(** X1. [getBaseUrl] never throws and leaves the world as it is; the URL it
    returns is never the empty string, and [getBackendUrl] of the API module
    returns the same URL, on the server as in the browser. *)
Theorem getBaseUrl_always_usable (w : World) :
  exists resolved,
    getBaseUrl w = (Normal resolved, w) /\ resolved <> "" /\
    getBackendUrl w = (Normal resolved, w).
Proof.
  exists (stored_url w). rewrite getBaseUrl_eq, getBackendUrl_eq.
  split; [reflexivity|]. split; [apply stored_url_nonempty|reflexivity].
Qed.

(** X2. Without a [window], with storage access refused, with no stored
    key, or with a stored value that is blank, [getBaseUrl] returns the
    default URL: the configured one unless it is empty, else
    [http://localhost:8000]. *)
Theorem getBaseUrl_falls_back_to_default (w : World) :
  window_defined (host w) = false \/
  storage_denied (host w) = true \/
  localStorage w !! SERVER_URL_KEY = None \/
  (exists stored, localStorage w !! SERVER_URL_KEY = Some stored /\ trim stored = "") ->
  getBaseUrl w = (Normal (DEFAULT_SERVER_URL (host w)), w) /\
  DEFAULT_SERVER_URL (host w) =
    match NEXT_PUBLIC_API_URL (host w) with
    | Some configured =>
        if String.eqb configured "" then "http://localhost:8000" else configured
    | None => "http://localhost:8000"
    end.
Proof.
  intros Hcase. split; [|reflexivity].
  rewrite getBaseUrl_eq. unfold stored_url.
  destruct Hcase as [-> | [-> | [-> | (stored & -> & Hblank)]]].
  - reflexivity.
  - now rewrite andb_false_r.
  - now destruct (_ && _).
  - rewrite Hblank. now destruct (_ && _).
Qed.

Lemma getBaseUrl_falls_back_to_default_witness :
  window_defined (host (fresh (server_side NetworkFailure))) = false /\
  getBaseUrl (fresh (server_side NetworkFailure))
    = (Normal "http://localhost:8000", fresh (server_side NetworkFailure)).
Proof.
  split; [reflexivity|].
  exact (proj1 (getBaseUrl_falls_back_to_default
                  (fresh (server_side NetworkFailure)) (or_introl eq_refl))).
Defined.

(** X3. In a browser that grants storage access, a stored value that is
    not blank is returned trimmed. *)
Theorem getBaseUrl_returns_trimmed_stored_url (w : World) (stored : string) :
  window_defined (host w) = true ->
  storage_denied (host w) = false ->
  localStorage w !! SERVER_URL_KEY = Some stored ->
  trim stored <> "" ->
  getBaseUrl w = (Normal (trim stored), w).
Proof.
  intros Hw Hd Hs Hne. rewrite getBaseUrl_eq. unfold stored_url.
  rewrite Hw, Hd, Hs. cbn. now rewrite str_or_nonempty.
Qed.

Lemma getBaseUrl_returns_trimmed_stored_url_witness :
  let w := returning_visitor NetworkFailure in
  localStorage w !! SERVER_URL_KEY = Some "  http://planner.example  " /\
  getBaseUrl w = (Normal "http://planner.example", w).
Proof.
  intros w. split; [reflexivity|].
  apply (getBaseUrl_returns_trimmed_stored_url w "  http://planner.example  ");
    try reflexivity.
  discriminate.
Defined.

(** X4. Where [localStorage] can be written, [storeServerUrl] stores the
    URL trimmed, touches neither the cache nor the request log, and the
    resolver afterwards returns the trimmed URL, or the default when the URL
    was blank. *)
Theorem storeServerUrl_then_resolve (newUrl : string) (w : World) :
  storage_usable w = true ->
  exists w1,
    storeServerUrl newUrl w = (Normal tt, w1) /\
    settingsCache w1 = settingsCache w /\ sent w1 = sent w /\
    localStorage w1 !! SERVER_URL_KEY = Some (trim newUrl) /\
    getBaseUrl w1 =
      (Normal (if String.eqb (trim newUrl) "" then DEFAULT_SERVER_URL (host w)
               else trim newUrl), w1).
Proof.
  intros Hu. exists (stored newUrl w). rewrite storeServerUrl_eq.
  assert (Hh : host (stored newUrl w) = host w).
  { unfold stored. now destruct (storage_usable w). }
  destruct (stored_url_after_store newUrl w (stored newUrl w) Hu Hh eq_refl)
    as (Hl & Hr).
  split; [reflexivity|].
  split; [unfold stored; now rewrite Hu|].
  split; [unfold stored; now rewrite Hu|].
  split; [exact Hl|].
  rewrite getBaseUrl_eq, Hr, trim_idem. reflexivity.
Qed.

Lemma storeServerUrl_then_resolve_witness :
  let w := fresh (browser NetworkFailure) in
  storage_usable w = true /\
  exists w1,
    storeServerUrl " http://x " w = (Normal tt, w1) /\
    settingsCache w1 = settingsCache w /\ sent w1 = sent w /\
    localStorage w1 !! SERVER_URL_KEY = Some "http://x" /\
    getBaseUrl w1 = (Normal "http://x", w1).
Proof.
  intros w. split; [reflexivity|].
  exact (storeServerUrl_then_resolve " http://x " w eq_refl).
Defined.

(** X5. [storeServerUrl] never throws; it leaves the cache, the request
    log and every other storage key alone, and where storage cannot be
    written (no [window], access refused, quota exceeded) it changes
    nothing at all. *)
Theorem storeServerUrl_never_raises (newUrl : string) (w : World) :
  exists w',
    storeServerUrl newUrl w = (Normal tt, w') /\
    settingsCache w' = settingsCache w /\ sent w' = sent w /\
    (forall k, k <> SERVER_URL_KEY -> localStorage w' !! k = localStorage w !! k) /\
    (storage_usable w = false -> w' = w).
Proof.
  exists (stored newUrl w). rewrite storeServerUrl_eq. unfold stored.
  destruct (storage_usable w); cbn; repeat split; auto; try discriminate.
  intros k Hk. now rewrite lookup_insert_ne.
Qed.

Lemma resetServerUrl_when_allowed (w : World) :
  window_defined (host w) = false \/ storage_denied (host w) = false ->
  resetServerUrl w =
    (Normal tt,
     with_settingsCache None
       (if window_defined (host w)
        then removed SERVER_URL_KEY w
        else w)).
Proof.
  intros Hcase. unfold resetServerUrl, bind, typeof_window_undefined,
    localStorage_removeItem, write_settingsCache, ret.
  destruct (window_defined (host w)) eqn:Hw; cbn; [|reflexivity].
  destruct Hcase as [|Hd]; [discriminate|]. now rewrite Hd.
Qed.

Lemma stored_url_after_reset (w : World) :
  window_defined (host w) = false \/ storage_denied (host w) = false ->
  stored_url (snd (resetServerUrl w)) = DEFAULT_SERVER_URL (host w).
Proof.
  intros Hcase. rewrite resetServerUrl_when_allowed by exact Hcase.
  unfold stored_url. destruct (window_defined (host w)) eqn:Hw; cbn.
  - rewrite Hw. cbn. rewrite lookup_delete_eq. now destruct (negb _).
  - now rewrite Hw.
Qed.

(** X6. Unless the browser refuses storage access, [resetServerUrl]
    completes, removes the stored key (in a browser), empties the cache, and
    the resolver afterwards returns the default URL. *)
Theorem resetServerUrl_restores_default (w : World) :
  window_defined (host w) = false \/ storage_denied (host w) = false ->
  exists w',
    resetServerUrl w = (Normal tt, w') /\
    settingsCache w' = None /\
    getCachedSettings w' = (Normal None, w') /\
    localStorage w' = (if window_defined (host w)
                       then delete SERVER_URL_KEY (localStorage w)
                       else localStorage w) /\
    getBaseUrl w' = (Normal (DEFAULT_SERVER_URL (host w)), w') /\
    sent w' = sent w.
Proof.
  intros Hcase. pose proof (stored_url_after_reset w Hcase) as Hurl.
  rewrite resetServerUrl_when_allowed in * by exact Hcase.
  eexists. split; [reflexivity|]. rewrite getBaseUrl_eq.
  cbn in Hurl. rewrite Hurl.
  destruct (window_defined (host w)); repeat split.
Qed.

Lemma resetServerUrl_restores_default_witness :
  let w := returning_visitor NetworkFailure in
  storage_denied (host w) = false /\
  getBaseUrl w = (Normal "http://planner.example", w) /\
  exists w',
    resetServerUrl w = (Normal tt, w') /\
    settingsCache w' = None /\
    getCachedSettings w' = (Normal None, w') /\
    localStorage w' = delete SERVER_URL_KEY (localStorage w) /\
    getBaseUrl w' = (Normal "http://localhost:8000", w') /\
    sent w' = sent w.
Proof.
  intros w. split; [reflexivity|]. split; [reflexivity|].
  exact (resetServerUrl_restores_default w (or_intror eq_refl)).
Defined.

(** X7. [resetServerUrl] is the one storage path without a [try]: in a
    browser that refuses storage access it throws before it reaches the
    cache, which therefore keeps its value. *)
Theorem resetServerUrl_denied_storage_throws (w : World) :
  window_defined (host w) = true -> storage_denied (host w) = true ->
  resetServerUrl w = (Thrown (DOMException "SecurityError"), w).
Proof.
  intros Hw Hd. unfold resetServerUrl, bind, typeof_window_undefined,
    localStorage_removeItem. rewrite Hw. cbn. now rewrite Hd.
Qed.

Lemma resetServerUrl_denied_storage_throws_witness :
  let w := with_settingsCache (Some known_keys) (fresh (locked_browser NetworkFailure)) in
  resetServerUrl w = (Thrown (DOMException "SecurityError"), w) /\
  settingsCache w = Some known_keys.
Proof.
  intros w. split; [|reflexivity].
  exact (resetServerUrl_denied_storage_throws w eq_refl eq_refl).
Defined.

(** X8. Whatever a [saveSettings] did before, a [resetServerUrl] that
    follows it (storage access not refused) leaves an empty cache and the
    default URL. *)
Theorem reset_after_save_forgets_new_url
    (updates : Partial.Settings) (w : World) :
  storage_denied (host w) = false ->
  let w1 := snd (saveSettings updates w) in
  exists w2,
    resetServerUrl w1 = (Normal tt, w2) /\
    settingsCache w2 = None /\
    getBaseUrl w2 = (Normal (DEFAULT_SERVER_URL (host w)), w2).
Proof.
  intros Hd w1.
  destruct (saveSettings_frame updates w) as (Hh & _ & _). fold w1 in Hh.
  assert (Hcase : window_defined (host w1) = false \/ storage_denied (host w1) = false).
  { right. now rewrite Hh. }
  pose proof (stored_url_after_reset w1 Hcase) as Hurl.
  rewrite resetServerUrl_when_allowed in * by exact Hcase.
  eexists. split; [reflexivity|]. rewrite getBaseUrl_eq.
  cbn in Hurl. rewrite Hurl, Hh. split; reflexivity.
Qed.

Lemma reset_after_save_forgets_new_url_witness :
  let w := fresh (browser (ok_json (JObj []))) in
  let w1 := snd (saveSettings (only_serverUrl " http://x ") w) in
  storage_denied (host w) = false /\
  getBaseUrl w1 = (Normal "http://x", w1) /\
  exists w2,
    resetServerUrl w1 = (Normal tt, w2) /\
    settingsCache w2 = None /\
    getBaseUrl w2 = (Normal "http://localhost:8000", w2).
Proof.
  intros w w1. split; [reflexivity|]. split; [reflexivity|].
  exact (reset_after_save_forgets_new_url (only_serverUrl " http://x ") w eq_refl).
Defined.

(** X9. Whatever the backend does, [loadSettings] completes normally
    after exactly one GET, without a body, to the resolved URL followed by
    [/api/settings]; it leaves storage alone, returns the resolved URL as
    [serverUrl], and either caches what it returns or returns empty keys and
    leaves the cache as it was. *)
Theorem loadSettings_never_raises (w : World) :
  exists (s : Settings) (w' : World) (req : Request),
    loadSettings w = (Normal s, w') /\
    getBaseUrl w = (Normal (serverUrl s), w) /\
    getBaseUrl w' = (Normal (serverUrl s), w') /\
    sent w' = req :: sent w /\
    url req = serverUrl s +:+ "/api/settings" /\ method req = "GET" /\
    body req = None /\
    localStorage w' = localStorage w /\
    (settingsCache w' = Some s \/
     settingsCache w' = settingsCache w /\
     togetherApiKey s = JStr "" /\ groqApiKey s = JStr "").
Proof.
  rewrite loadSettings_eq. unfold load_outcome, fallback_settings.
  destruct (reply w) as [|r]; [|destruct (ok r); [destruct (payload r) as [[]| |]|]].
  all: eexists _, _, (load_request w); split; [reflexivity|].
  all: rewrite !getBaseUrl_eq; cbn; repeat split; auto.
Qed.

(** X10. A success status whose body is not JSON, breaks off, or is
    [null] is treated like a failure: [loadSettings] returns empty keys with
    the resolved URL and leaves the cache as it was. *)
Theorem loadSettings_unusable_body_falls_back (w : World) (r : Response) :
  reply w = Responded r -> ok r = true ->
  payload r = MalformedBody \/ payload r = AbortedBody \/
  payload r = JsonBody JNull ->
  exists (resolved : string) (w' : World),
    getBaseUrl w = (Normal resolved, w) /\
    loadSettings w =
      (Normal {| togetherApiKey := JStr ""; groqApiKey := JStr "";
                 serverUrl := resolved |}, w') /\
    settingsCache w' = settingsCache w.
Proof.
  intros Hr Hok Hbody. exists (stored_url w).
  rewrite getBaseUrl_eq, loadSettings_eq. unfold load_outcome, fallback_settings.
  rewrite Hr, Hok.
  destruct Hbody as [-> | [-> | ->]]; eauto.
Qed.

Lemma loadSettings_unusable_body_falls_back_witness :
  let w := with_settingsCache (Some known_keys) (fresh (browser (ok_json JNull))) in
  exists (resolved : string) (w' : World),
    getBaseUrl w = (Normal resolved, w) /\
    loadSettings w =
      (Normal {| togetherApiKey := JStr ""; groqApiKey := JStr "";
                 serverUrl := resolved |}, w') /\
    settingsCache w' = Some known_keys.
Proof.
  intros w.
  exact (loadSettings_unusable_body_falls_back w
           {| status := 200; statusText := "OK"; payload := JsonBody JNull |}
           eq_refl eq_refl (or_intror (or_intror eq_refl))).
Defined.

(** X11. On a successful [loadSettings] the value returned is the one
    cached; a key the body gives as a string is taken as it is, a key that
    is missing or falsy becomes the empty string, and a body that is JSON
    but not an object yields two empty keys. *)
Theorem loadSettings_success_keys (w : World) (v : JsVal) :
  answers_json w v ->
  exists (s : Settings) (w' : World),
    loadSettings w = (Normal s, w') /\
    settingsCache w' = Some s /\
    getCachedSettings w' = (Normal (Some s), w') /\
    (forall key, field_of v "togetherApiKey" = JStr key -> togetherApiKey s = JStr key) /\
    (forall key, field_of v "groqApiKey" = JStr key -> groqApiKey s = JStr key) /\
    (truthy (field_of v "togetherApiKey") = false -> togetherApiKey s = JStr "") /\
    (truthy (field_of v "groqApiKey") = false -> groqApiKey s = JStr "") /\
    ((forall props, v <> JObj props) ->
     togetherApiKey s = JStr "" /\ groqApiKey s = JStr "").
Proof.
  intros Hjson.
  destruct (loadSettings_success w v Hjson) as (s & Hs & Ht & Hg & _).
  eexists s, _. split; [exact Hs|]. split; [reflexivity|]. split; [reflexivity|].
  rewrite Ht, Hg. unfold js_or. repeat split.
  - intros key ->. cbn. now destruct (String.eqb_spec key "") as [->|].
  - intros key ->. cbn. now destruct (String.eqb_spec key "") as [->|].
  - now intros ->.
  - now intros ->.
  - destruct v; try reflexivity. now destruct (H props).
  - destruct v; try reflexivity. now destruct (H props).
Qed.

Lemma loadSettings_success_keys_witness :
  let w := fresh (browser (ok_json hostile_body)) in
  answers_json w hostile_body /\
  exists (s : Settings) (w' : World),
    loadSettings w = (Normal s, w') /\
    settingsCache w' = Some s /\
    togetherApiKey s = JStr "k1" /\ groqApiKey s = JStr "".
Proof.
  intros w.
  assert (H : answers_json w hostile_body).
  { eexists. repeat split; try reflexivity; discriminate. }
  split; [exact H|].
  destruct (loadSettings_success_keys w hostile_body H)
    as (s & w' & Hs & Hc & _ & Ht & _ & _ & Hg & _).
  exists s, w'. split; [exact Hs|]. split; [exact Hc|].
  split; [apply Ht; reflexivity|apply Hg; reflexivity].
Defined.

(** X12. [saveSettings] either returns a value, which is then the
    cached one, or throws and leaves the cache as it was; there is no
    third outcome. *)
Theorem saveSettings_updates_cache_iff_success
    (updates : Partial.Settings) (w : World) :
  (exists (s : Settings) (w' : World),
      saveSettings updates w = (Normal s, w') /\ settingsCache w' = Some s /\
      getCachedSettings w' = (Normal (Some s), w')) \/
  (exists (e : JsExn) (w' : World),
      saveSettings updates w = (Thrown e, w') /\
      settingsCache w' = settingsCache w).
Proof.
  rewrite saveSettings_eq. unfold save_outcome.
  destruct (reply w) as [|r]; [|destruct (ok r); [destruct (payload r) as [[]| |]|]].
  all: first [ left; eexists _, _; split; [reflexivity|]; split; reflexivity
             | right; eexists _, _; split; [reflexivity|];
               cbn; apply settingsCache_before_request ].
Qed.

(** X13. A success status whose body is not JSON, breaks off, or is
    [null] makes [saveSettings] throw ([SyntaxError] for a body that is not
    JSON, [TypeError] otherwise) although the backend accepted the request;
    the cache is left as it was, and storage is as the statements before the
    request left it. *)
Theorem saveSettings_unusable_body_raises
    (updates : Partial.Settings) (w : World) (r : Response) :
  reply w = Responded r -> ok r = true ->
  payload r = MalformedBody \/ payload r = AbortedBody \/
  payload r = JsonBody JNull ->
  exists (e : JsExn) (w' : World),
    saveSettings updates w = (Thrown e, w') /\
    (payload r = MalformedBody -> e = SyntaxError) /\
    (payload r <> MalformedBody -> e = TypeError) /\
    settingsCache w' = settingsCache w /\
    localStorage w' = localStorage (before_request updates w).
Proof.
  intros Hr Hok Hbody. rewrite saveSettings_eq. unfold save_outcome.
  rewrite Hr, Hok.
  destruct Hbody as [-> | [-> | ->]]; eexists _, _; (split; [reflexivity|]);
    cbn; rewrite settingsCache_before_request; repeat split; congruence.
Qed.

Lemma saveSettings_unusable_body_raises_witness :
  let w := fresh (browser (Responded {| status := 200; statusText := "OK"; payload := MalformedBody |})) in
  exists (e : JsExn) (w' : World),
    saveSettings no_updates w = (Thrown e, w') /\
    e = SyntaxError /\ settingsCache w' = settingsCache w.
Proof.
  intros w.
  destruct (saveSettings_unusable_body_raises no_updates w
              {| status := 200; statusText := "OK"; payload := MalformedBody |}
              eq_refl eq_refl (or_introl eq_refl))
    as (e & w' & Hrun & He & _ & Hc & _).
  exists e, w'. split; [exact Hrun|]. split; [apply He; reflexivity|exact Hc].
Defined.

(** X14. A [saveSettings] that carries no server URL leaves storage
    and the resolved URL as they were and POSTs the key fields of the update
    to the resolved URL followed by [/api/settings]; an update without any
    field still POSTs, with the empty object as body. *)
Theorem saveSettings_without_serverUrl_keeps_storage
    (updates : Partial.Settings) (w : World) :
  Partial.serverUrl updates = None ->
  let w' := snd (saveSettings updates w) in
  exists (base : string) (req : Request),
    getBaseUrl w = (Normal base, w) /\
    localStorage w' = localStorage w /\
    getBaseUrl w' = (Normal base, w') /\
    sent w' = req :: sent w /\
    url req = base +:+ "/api/settings" /\ method req = "POST" /\
    body req = Some (JObj (backendUpdates_of updates)) /\
    (Partial.togetherApiKey updates = None -> Partial.groqApiKey updates = None ->
     body req = Some (JObj [])).
Proof.
  intros Hnone w'.
  destruct (saveSettings_frame updates w) as (Hh & Hs & Hsent).
  fold w' in Hh, Hs, Hsent.
  unfold before_request in Hs. rewrite Hnone in Hs.
  exists (stored_url w), (save_request updates w).
  rewrite !getBaseUrl_eq.
  assert (Hu : stored_url w' = stored_url w).
  { unfold stored_url. now rewrite Hh, Hs. }
  rewrite Hu. cbn. unfold target_url. rewrite Hnone.
  repeat split; auto.
  intros Ht Hg. unfold backendUpdates_of. now rewrite Ht, Hg.
Qed.

Lemma saveSettings_without_serverUrl_keeps_storage_witness :
  let w := returning_visitor server_error in
  let w' := snd (saveSettings no_updates w) in
  Partial.serverUrl no_updates = None /\
  exists (base : string) (req : Request),
    getBaseUrl w = (Normal base, w) /\
    localStorage w' = localStorage w /\
    getBaseUrl w' = (Normal base, w') /\
    sent w' = req :: sent w /\
    url req = base +:+ "/api/settings" /\ method req = "POST" /\
    body req = Some (JObj []).
Proof.
  intros w w'. split; [reflexivity|].
  destruct (saveSettings_without_serverUrl_keeps_storage no_updates w eq_refl)
    as (base & req & H1 & H2 & H3 & H4 & H5 & H6 & _ & H8).
  exists base, req. repeat split; try assumption. apply H8; reflexivity.
Defined.

(** X15. A [saveSettings] whose server URL is blank goes to the
    default URL, returns the default URL as [serverUrl] when it succeeds,
    and, where storage can be written, stores the default URL trimmed. *)
Theorem saveSettings_blank_serverUrl_targets_default
    (updates : Partial.Settings) (newUrl : string) (w : World) :
  Partial.serverUrl updates = Some newUrl ->
  trim newUrl = "" ->
  let w' := snd (saveSettings updates w) in
  (exists req, sent w' = req :: sent w /\
               url req = DEFAULT_SERVER_URL (host w) +:+ "/api/settings") /\
  (forall s w'', saveSettings updates w = (Normal s, w'') ->
                 serverUrl s = DEFAULT_SERVER_URL (host w)) /\
  (storage_usable w = true ->
   localStorage w' !! SERVER_URL_KEY = Some (trim (DEFAULT_SERVER_URL (host w)))).
Proof.
  intros Hnew Hblank w'.
  destruct (saveSettings_frame updates w) as (Hh & Hs & Hsent).
  fold w' in Hh, Hs, Hsent.
  assert (Ht : target_url updates w = DEFAULT_SERVER_URL (host w)).
  { unfold target_url. rewrite Hnew, Hblank. reflexivity. }
  split; [|split].
  - exists (save_request updates w). split; [exact Hsent|]. cbn. now rewrite Ht.
  - intros s w'' Hrun. apply saveSettings_serverUrl in Hrun. now rewrite Hrun.
  - intros Hu. unfold before_request in Hs. rewrite Hnew, Ht in Hs.
    now destruct (stored_url_after_store _ w w' Hu Hh Hs).
Qed.

Lemma saveSettings_blank_serverUrl_targets_default_witness :
  let w := returning_visitor (ok_json (JObj [])) in
  let w' := snd (saveSettings (only_serverUrl "   ") w) in
  trim "   " = "" /\
  (exists req, sent w' = req :: sent w /\
               url req = "http://localhost:8000/api/settings") /\
  localStorage w' !! SERVER_URL_KEY = Some "http://localhost:8000".
Proof.
  intros w w'. split; [reflexivity|].
  destruct (saveSettings_blank_serverUrl_targets_default
              (only_serverUrl "   ") "   " w eq_refl eq_refl)
    as (Hreq & _ & Hstore).
  split; [exact Hreq|]. apply Hstore. reflexivity.
Defined.

(** Runs an API helper on every kind of reply and reads off the world it
    leaves: the world it started in, with one more request in the log. *)
Ltac run_helper w :=
  unfold try_catch, bind; rewrite getBackendUrl_eq;
  unfold fetch, plan_if_ok, response_json, response_text, bind, member, ret, throw;
  destruct (reply w) as [|?r]; [|destruct (ok r); destruct (payload r) as [[]| |]];
  cbn;
  repeat match goal with
    | |- context [if ?b then _ else _] => destruct b; cbn
    end;
  eexists; reflexivity.

Lemma captureContext_run (content : string) (w : World) :
  exists result,
    captureContext content w =
      (Normal result,
       issued {| url := stored_url w +:+ "/api/context"; method := "POST";
                     cache := None; headers := json_headers;
                     body := Some (JObj [("source", JStr "manual");
                                         ("content", JStr content)]) |} w).
Proof. unfold captureContext. run_helper w. Qed.

Lemma getDailyPlan_run (dateStr : string) (w : World) :
  exists result,
    getDailyPlan dateStr w =
      (Normal result,
       issued {| url := stored_url w +:+ "/api/daily-plan?date=" +:+ dateStr;
                     method := "GET"; cache := Some "no-cache";
                     headers := json_headers; body := None |} w).
Proof. unfold getDailyPlan. run_helper w. Qed.

Lemma generateDailyPlan_run (dateStr : string) (w : World) :
  exists result,
    generateDailyPlan dateStr w =
      (Normal result,
       issued {| url := stored_url w +:+ "/api/daily-plan/generate?date=" +:+ dateStr;
                     method := "POST"; cache := Some "no-cache";
                     headers := json_headers; body := None |} w).
Proof. unfold generateDailyPlan. run_helper w. Qed.

Lemma getAvailableDates_run (w : World) :
  exists result,
    getAvailableDates w =
      (Normal result,
       issued {| url := stored_url w +:+ "/api/daily-plan/available-dates";
                     method := "GET"; cache := Some "no-cache";
                     headers := json_headers; body := None |} w).
Proof. unfold getAvailableDates. run_helper w. Qed.

Lemma generateMissingPlans_run (w : World) :
  exists result,
    generateMissingPlans w =
      (Normal result,
       issued {| url := stored_url w +:+ "/api/daily-plan/generate-missing";
                     method := "POST"; cache := Some "no-cache";
                     headers := json_headers; body := None |} w).
Proof. unfold generateMissingPlans. run_helper w. Qed.

Lemma toggleTaskCompletion_run (taskId : Z) (completed : bool) (date : string)
    (w : World) :
  exists result,
    toggleTaskCompletion taskId completed date w =
      (Normal result,
       issued {| url := stored_url w +:+ "/api/tasks/" +:+
                        template_number (host w) taskId;
                     method := "PATCH"; cache := Some "no-cache";
                     headers := json_headers;
                     body := Some (JObj [("completed", JBool completed);
                                         ("date", JStr date)]) |} w).
Proof. unfold toggleTaskCompletion. run_helper w. Qed.

Lemma getTodayPlan_run (w : World) :
  getTodayPlan w = getDailyPlan (today_dateStr (clock (host w))) w.
Proof. reflexivity. Qed.

Lemma resetServerUrl_cases (w : World) :
  resetServerUrl w = (Thrown (DOMException "SecurityError"), w) \/
  resetServerUrl w =
    (Normal tt,
     with_settingsCache None
       (if window_defined (host w)
        then removed SERVER_URL_KEY w
        else w)).
Proof.
  destruct (window_defined (host w)) eqn:Hw.
  - destruct (storage_denied (host w)) eqn:Hd.
    + left. unfold resetServerUrl, bind, typeof_window_undefined,
        localStorage_removeItem. rewrite Hw. cbn. now rewrite Hd.
    + right. rewrite resetServerUrl_when_allowed by auto. now rewrite Hw.
  - right. rewrite resetServerUrl_when_allowed by auto. now rewrite Hw.
Qed.

(** What a call leaves of the host, of the other storage keys and of the
    request log. *)
Lemma after_frame (c : Call) (w : World) :
  host (after c w) = host w /\
  (forall k, k <> SERVER_URL_KEY ->
             localStorage (after c w) !! k = localStorage w !! k) /\
  exists reqs, sent (after c w) = (reqs ++ sent w)%list /\
               length reqs = if issues_request c then 1%nat else 0%nat.
Proof.
  destruct c; cbn [after issues_request].
  - rewrite loadSettings_eq. unfold load_outcome.
    destruct (reply w) as [|r]; [|destruct (ok r); [destruct (payload r) as [[]| |]|]];
      cbn; repeat split; auto; now exists [load_request w].
  - destruct (saveSettings_frame updates w) as (Hh & Hs & Hsent).
    split; [exact Hh|]. split.
    + intros k Hk. rewrite Hs. unfold before_request, stored.
      destruct (Partial.serverUrl updates); [|reflexivity].
      destruct (storage_usable w); [|reflexivity].
      cbn. now rewrite lookup_insert_ne.
    + exists [save_request updates w]. now rewrite Hsent.
  - rewrite getBaseUrl_eq. cbn. repeat split; auto. now exists [].
  - cbn. repeat split; auto. now exists [].
  - cbn. repeat split; auto. now exists [].
  - destruct (resetServerUrl_cases w) as [-> | ->]; cbn.
    + repeat split; auto. now exists [].
    + destruct (window_defined (host w)); cbn; repeat split; auto;
        try (now exists []).
      intros k Hk. now rewrite lookup_delete_ne.
  - destruct (captureContext_run content w) as [res ->]. cbn.
    repeat split; auto. eexists [_]. split; reflexivity.
  - destruct (getDailyPlan_run dateStr w) as [res ->]. cbn.
    repeat split; auto. eexists [_]. split; reflexivity.
  - rewrite getTodayPlan_run.
    destruct (getDailyPlan_run (today_dateStr (clock (host w))) w) as [res ->]. cbn.
    repeat split; auto. eexists [_]. split; reflexivity.
  - destruct (generateDailyPlan_run dateStr w) as [res ->]. cbn.
    repeat split; auto. eexists [_]. split; reflexivity.
  - destruct (getAvailableDates_run w) as [res ->]. cbn.
    repeat split; auto. eexists [_]. split; reflexivity.
  - destruct (generateMissingPlans_run w) as [res ->]. cbn.
    repeat split; auto. eexists [_]. split; reflexivity.
  - destruct (toggleTaskCompletion_run taskId completed date w) as [res ->]. cbn.
    repeat split; auto. eexists [_]. split; reflexivity.
  - cbn. repeat split; auto. now exists [].
Qed.

Lemma after_all_cons (c : Call) (calls : list Call) (w : World) :
  after_all (c :: calls) w = after_all calls (after c w).
Proof. reflexivity. Qed.

(** X16. No sequence of calls changes a storage key other than
    [contextos_server_url]. *)
Theorem calls_write_only_the_server_url_key (calls : list Call) (w : World)
    (k : string) :
  k <> SERVER_URL_KEY ->
  localStorage (after_all calls w) !! k = localStorage w !! k.
Proof.
  intros Hk. revert w. induction calls as [|c calls IH]; intros w; [reflexivity|].
  rewrite after_all_cons, IH.
  now apply (after_frame c w).
Qed.

Lemma calls_write_only_the_server_url_key_witness :
  let w := with_localStorage {[ "theme" := "dark" ]} (fresh (browser server_error)) in
  let w' := after_all [CallSaveSettings (only_serverUrl "http://x");
                       CallLoadSettings; CallResetServerUrl] w in
  "theme" <> SERVER_URL_KEY /\
  localStorage w' !! "theme" = Some "dark".
Proof.
  intros w w'.
  assert (H : "theme" <> SERVER_URL_KEY) by discriminate.
  split; [exact H|].
  unfold w'. rewrite (calls_write_only_the_server_url_key _ w "theme" H).
  reflexivity.
Defined.

(** X17. A sequence of calls adds to the request log exactly one
    request for each call that reaches [fetch] (a load, a save, an API
    helper) and none for the others: nothing is retried and nothing is
    sent behind the caller's back. *)
Theorem calls_issue_one_request_each (calls : list Call) (w : World) :
  exists reqs,
    sent (after_all calls w) = (reqs ++ sent w)%list /\
    length reqs = length (List.filter issues_request calls).
Proof.
  revert w. induction calls as [|c calls IH]; intros w; [now exists []|].
  rewrite after_all_cons.
  destruct (IH (after c w)) as (later & Hlater & Hlen).
  destruct (after_frame c w) as (_ & _ & first & Hfirst & Hone).
  exists (later ++ first)%list. rewrite Hlater, Hfirst, app_assoc.
  split; [reflexivity|]. rewrite length_app, Hlen, Hone. cbn [List.filter].
  destruct (issues_request c); cbn; lia.
Qed.

(** What a call leaves in the cache: what was there, nothing, or the value
    merged by a load or a save that was answered with JSON. *)
Lemma after_cache (c : Call) (w : World) :
  settingsCache (after c w) = settingsCache w \/
  settingsCache (after c w) = None \/
  (exists v s, c = CallLoadSettings /\ answers_json w v /\
     settingsCache (after c w) = Some s /\
     togetherApiKey s = js_or (field_of v "togetherApiKey") (JStr "") /\
     groqApiKey s = js_or (field_of v "groqApiKey") (JStr "")) \/
  (exists updates v s, c = CallSaveSettings updates /\ answers_json w v /\
     settingsCache (after c w) = Some s /\
     togetherApiKey s =
       js_or (js_or (js_or (field_of (field_of v "settings") "togetherApiKey")
                           (own_prop (backendUpdates_of updates) "togetherApiKey"))
                    (cached_field togetherApiKey (settingsCache w))) (JStr "") /\
     groqApiKey s =
       js_or (js_or (js_or (field_of (field_of v "settings") "groqApiKey")
                           (own_prop (backendUpdates_of updates) "groqApiKey"))
                    (cached_field groqApiKey (settingsCache w))) (JStr "")).
Proof.
  destruct c; cbn [after].
  - rewrite loadSettings_eq. unfold load_outcome.
    destruct (reply w) as [|r] eqn:Hr; [now left|].
    destruct (ok r) eqn:Hok; [|now left].
    destruct (payload r) as [v| |] eqn:Hp; [|now left..].
    destruct v; try (now left).
    all: right; right; left; eexists _, _; split; [reflexivity|].
    all: split; [exists r; split; [exact Hr|]; split; [exact Hok|]; split; [exact Hp|]; split; discriminate|].
    all: cbn; repeat split.
  - rewrite saveSettings_eq. unfold save_outcome.
    destruct (reply w) as [|r] eqn:Hr; [left; apply settingsCache_before_request|].
    destruct (ok r) eqn:Hok; [|left; apply settingsCache_before_request].
    destruct (payload r) as [v| |] eqn:Hp; [|left; apply settingsCache_before_request..].
    destruct v; try (left; apply settingsCache_before_request).
    all: right; right; right; eexists _, _, _; split; [reflexivity|].
    all: split; [exists r; split; [exact Hr|]; split; [exact Hok|]; split; [exact Hp|]; split; discriminate|].
    all: cbn; repeat split.
  - left. now rewrite getBaseUrl_eq.
  - right. now left.
  - now left.
  - destruct (resetServerUrl_cases w) as [-> | ->]; [now left|right; now left].
  - destruct (captureContext_run content w) as [res ->]. now left.
  - destruct (getDailyPlan_run dateStr w) as [res ->]. now left.
  - rewrite getTodayPlan_run.
    destruct (getDailyPlan_run (today_dateStr (clock (host w))) w) as [res ->]. now left.
  - destruct (generateDailyPlan_run dateStr w) as [res ->]. now left.
  - destruct (getAvailableDates_run w) as [res ->]. now left.
  - destruct (generateMissingPlans_run w) as [res ->]. now left.
  - destruct (toggleTaskCompletion_run taskId completed date w) as [res ->]. now left.
  - right. now left.
Qed.

Lemma js_or_empty_settled (a : JsVal) : settled_key (js_or a (JStr "")) = true.
Proof.
  unfold js_or. destruct (truthy a) eqn:Ha; [|reflexivity].
  destruct a; cbn in *; auto.
Qed.

(** X18. Starting from an empty cache (or one whose keys are strings
    or truthy values), after any sequence of calls a cached key is a string
    or a truthy value, never [undefined] and never [null]. *)
Theorem cached_keys_never_missing (calls : list Call) (w : World) :
  keys_settled (settingsCache w) = true ->
  keys_settled (settingsCache (after_all calls w)) = true /\
  forall s, settingsCache (after_all calls w) = Some s ->
    togetherApiKey s <> JUndefined /\ togetherApiKey s <> JNull /\
    groqApiKey s <> JUndefined /\ groqApiKey s <> JNull.
Proof.
  intros Hstart.
  assert (Hinv : keys_settled (settingsCache (after_all calls w)) = true).
  { revert w Hstart. induction calls as [|c calls IH]; intros w Hstart; [exact Hstart|].
    rewrite after_all_cons. apply IH.
    destruct (after_cache c w)
      as [-> | [-> | [(v & s & _ & _ & -> & Ht & Hg)
                    | (u & v & s & _ & _ & -> & Ht & Hg)]]];
      auto; cbn; rewrite Ht, Hg, !js_or_empty_settled; reflexivity. }
  split; [exact Hinv|].
  intros s Hs. rewrite Hs in Hinv. cbn in Hinv.
  apply andb_prop in Hinv as [Ht Hg].
  destruct (togetherApiKey s), (groqApiKey s); cbn in *; repeat split; congruence.
Qed.

Lemma cached_keys_never_missing_witness :
  let w := fresh (browser (ok_json (JObj [("togetherApiKey", JNull)]))) in
  let w' := after_all [CallLoadSettings] w in
  keys_settled (settingsCache w) = true /\
  keys_settled (settingsCache w') = true /\
  forall s, settingsCache w' = Some s ->
    togetherApiKey s <> JUndefined /\ togetherApiKey s <> JNull /\
    groqApiKey s <> JUndefined /\ groqApiKey s <> JNull.
Proof.
  intros w w'. split; [reflexivity|].
  exact (cached_keys_never_missing [CallLoadSettings] w eq_refl).
Defined.

Lemma js_or_empty_string (a : JsVal) :
  string_or_absent a = true -> is_string (js_or a (JStr "")) = true.
Proof. unfold js_or. destruct a; cbn; try discriminate; auto. now destruct (negb _). Qed.

Lemma cached_field_typed (field : Settings -> JsVal) (c : option Settings) :
  (forall s, c = Some s -> is_string (field s) = true) ->
  string_or_absent (cached_field field c) = true.
Proof.
  destruct c as [s|]; cbn; [|reflexivity].
  intros H. specialize (H s eq_refl). now destruct (field s).
Qed.

Lemma after_keeps_string_keys (c : Call) (w : World) :
  typed_outcome (reply w) = true ->
  keys_are_strings (settingsCache w) = true ->
  keys_are_strings (settingsCache (after c w)) = true.
Proof.
  intros Htyped Hstart.
  destruct (after_cache c w)
    as [-> | [-> | [(v & s & _ & Hjson & -> & Ht & Hg)
                  | (u & v & s & _ & Hjson & -> & Ht & Hg)]]]; auto.
  - destruct Hjson as (r & Hr & _ & Hp & _).
    unfold typed_outcome in Htyped. rewrite Hr, Hp in Htyped.
    apply andb_prop in Htyped as [Htop _].
    apply andb_prop in Htop as [Hat Hag].
    cbn. rewrite Ht, Hg, !js_or_empty_string by assumption. reflexivity.
  - destruct Hjson as (r & Hr & _ & Hp & _).
    unfold typed_outcome in Htyped. rewrite Hr, Hp in Htyped.
    apply andb_prop in Htyped as [_ Hnested].
    apply andb_prop in Hnested as [Hat Hag].
    assert (Hct : string_or_absent (cached_field togetherApiKey (settingsCache w)) = true).
    { apply cached_field_typed. intros s0 Hs0. rewrite Hs0 in Hstart.
      now apply andb_prop in Hstart as [? _]. }
    assert (Hcg : string_or_absent (cached_field groqApiKey (settingsCache w)) = true).
    { apply cached_field_typed. intros s0 Hs0. rewrite Hs0 in Hstart.
      now apply andb_prop in Hstart as [_ ?]. }
    cbn. rewrite Ht, Hg.
    rewrite (js_or_chain _ _ (Partial.togetherApiKey u))
      by auto using backendUpdates_together.
    rewrite (js_or_chain _ _ (Partial.groqApiKey u))
      by auto using backendUpdates_groq.
    reflexivity.
Qed.

(** X19. If every answer of the backend carries its keys as strings
    (or not at all), at top level and under [settings], then from a cache
    whose keys are strings every sequence of calls leaves a cache whose keys
    are strings. *)
Theorem cached_keys_stay_strings (calls : list Call) (w : World) :
  (forall n, typed_outcome (backend (host w) n) = true) ->
  keys_are_strings (settingsCache w) = true ->
  keys_are_strings (settingsCache (after_all calls w)) = true.
Proof.
  revert w. induction calls as [|c calls IH]; intros w Htyped Hstart; [exact Hstart|].
  rewrite after_all_cons. apply IH.
  - intros n. rewrite (proj1 (after_frame c w)). apply Htyped.
  - apply after_keeps_string_keys; [apply Htyped|exact Hstart].
Qed.

Lemma cached_keys_stay_strings_witness :
  let w := fresh (browser (ok_json partial_answer)) in
  (forall n, typed_outcome (backend (host w) n) = true) /\
  keys_are_strings (settingsCache w) = true /\
  keys_are_strings
    (settingsCache (after_all [CallLoadSettings; CallSaveSettings no_updates] w))
    = true.
Proof.
  intros w.
  assert (H : forall n, typed_outcome (backend (host w) n) = true)
    by (intros n; reflexivity).
  split; [exact H|]. split; [reflexivity|].
  exact (cached_keys_stay_strings
           [CallLoadSettings; CallSaveSettings no_updates] w H eq_refl).
Defined.

(** X20. Every API helper completes normally whatever the backend
    does, adds one request to the log, and leaves storage and the settings
    cache as they were. *)
Theorem api_helpers_never_raise_and_keep_state (w : World) :
  let untouched (f : Async JsVal) :=
    exists (result : JsVal) (w' : World),
      f w = (Normal result, w') /\ host w' = host w /\
      localStorage w' = localStorage w /\ settingsCache w' = settingsCache w /\
      length (sent w') = S (length (sent w)) in
  (forall content, untouched (captureContext content)) /\
  (forall dateStr, untouched (getDailyPlan dateStr)) /\
  untouched getTodayPlan /\
  (forall dateStr, untouched (generateDailyPlan dateStr)) /\
  untouched getAvailableDates /\
  untouched generateMissingPlans /\
  (forall taskId completed date,
      untouched (toggleTaskCompletion taskId completed date)).
Proof.
  cbv zeta. repeat split; intros.
  - destruct (captureContext_run content w) as [res ->]. eexists _, _. repeat split.
  - destruct (getDailyPlan_run dateStr w) as [res ->]. eexists _, _. repeat split.
  - rewrite getTodayPlan_run.
    destruct (getDailyPlan_run (today_dateStr (clock (host w))) w) as [res ->].
    eexists _, _. repeat split.
  - destruct (generateDailyPlan_run dateStr w) as [res ->]. eexists _, _. repeat split.
  - destruct (getAvailableDates_run w) as [res ->]. eexists _, _. repeat split.
  - destruct (generateMissingPlans_run w) as [res ->]. eexists _, _. repeat split.
  - destruct (toggleTaskCompletion_run taskId completed date w) as [res ->].
    eexists _, _. repeat split.
Qed.

(** X21. Whatever the outcome, each API helper issues its request
    with the method and body of its endpoint, to the URL [getBaseUrl]
    returns followed by the endpoint's path; the date is appended as it is,
    and a task number that is a safe integer as its decimal numeral. *)
Theorem api_requests_follow_endpoints (w : World) :
  exists base,
    getBaseUrl w = (Normal base, w) /\
    (forall content,
        sent (snd (captureContext content w)) =
          {| url := base +:+ "/api/context"; method := "POST"; cache := None;
             headers := json_headers;
             body := Some (JObj [("source", JStr "manual");
                                 ("content", JStr content)]) |} :: sent w) /\
    (forall dateStr,
        sent (snd (getDailyPlan dateStr w)) =
          {| url := base +:+ "/api/daily-plan?date=" +:+ dateStr; method := "GET";
             cache := Some "no-cache"; headers := json_headers;
             body := None |} :: sent w) /\
    (forall dateStr,
        sent (snd (generateDailyPlan dateStr w)) =
          {| url := base +:+ "/api/daily-plan/generate?date=" +:+ dateStr;
             method := "POST"; cache := Some "no-cache"; headers := json_headers;
             body := None |} :: sent w) /\
    sent (snd (getAvailableDates w)) =
      {| url := base +:+ "/api/daily-plan/available-dates"; method := "GET";
         cache := Some "no-cache"; headers := json_headers;
         body := None |} :: sent w /\
    sent (snd (generateMissingPlans w)) =
      {| url := base +:+ "/api/daily-plan/generate-missing"; method := "POST";
         cache := Some "no-cache"; headers := json_headers;
         body := None |} :: sent w /\
    (forall taskId completed date,
        is_safe_integer taskId = true ->
        sent (snd (toggleTaskCompletion taskId completed date w)) =
          {| url := base +:+ "/api/tasks/" +:+ String_of_number taskId;
             method := "PATCH"; cache := Some "no-cache"; headers := json_headers;
             body := Some (JObj [("completed", JBool completed);
                                 ("date", JStr date)]) |} :: sent w).
Proof.
  exists (stored_url w). split; [apply getBaseUrl_eq|].
  repeat split; intros.
  - now destruct (captureContext_run content w) as [res ->].
  - now destruct (getDailyPlan_run dateStr w) as [res ->].
  - now destruct (generateDailyPlan_run dateStr w) as [res ->].
  - now destruct (getAvailableDates_run w) as [res ->].
  - now destruct (generateMissingPlans_run w) as [res ->].
  - destruct (toggleTaskCompletion_run taskId completed date w) as [res ->].
    cbn. unfold template_number. now rewrite H.
Qed.

(** Task 42 in a fresh browser. *)
Lemma api_requests_follow_endpoints_witness :
  let w := fresh (browser NetworkFailure) in
  is_safe_integer 42 = true /\
  sent (snd (toggleTaskCompletion 42 true "2026-01-01" w)) =
    [{| url := "http://localhost:8000/api/tasks/42"; method := "PATCH";
        cache := Some "no-cache"; headers := json_headers;
        body := Some (JObj [("completed", JBool true);
                            ("date", JStr "2026-01-01")]) |}].
Proof.
  intros w. split; [reflexivity|].
  destruct (api_requests_follow_endpoints w)
    as (base & Hbase & _ & _ & _ & _ & _ & Htoggle).
  assert (Hb : base = "http://localhost:8000").
  { rewrite getBaseUrl_eq in Hbase. now injection Hbase as <-. }
  rewrite Hb in Htoggle.
  exact (Htoggle 42%Z true "2026-01-01" eq_refl).
Defined.

Ltac run_answered Hr Hok Hp :=
  unfold try_catch, bind; rewrite getBackendUrl_eq; unfold fetch;
  rewrite Hr; cbn; rewrite Hok; cbn [negb];
  unfold response_json, response_text, plan_if_ok, bind; rewrite Hp; cbn.

(** X22. On a success status with a JSON body, [captureContext],
    [getDailyPlan], [getTodayPlan], [getAvailableDates] and
    [generateMissingPlans] return that body as it is (so [{exists:false}]
    comes back with no [plan], and a [null] body comes back as [null]). *)
Theorem helpers_return_success_body_verbatim (w : World) (r : Response) (v : JsVal) :
  reply w = Responded r -> ok r = true -> payload r = JsonBody v ->
  (forall content, fst (captureContext content w) = Normal v) /\
  (forall dateStr, fst (getDailyPlan dateStr w) = Normal v) /\
  fst (getTodayPlan w) = Normal v /\
  fst (getAvailableDates w) = Normal v /\
  fst (generateMissingPlans w) = Normal v.
Proof.
  intros Hr Hok Hp.
  assert (Hget : forall dateStr, fst (getDailyPlan dateStr w) = Normal v).
  { intros dateStr. unfold getDailyPlan. run_answered Hr Hok Hp. reflexivity. }
  repeat split; intros; try apply Hget.
  - unfold captureContext. run_answered Hr Hok Hp. reflexivity.
  - unfold getAvailableDates. run_answered Hr Hok Hp. reflexivity.
  - unfold generateMissingPlans. run_answered Hr Hok Hp. reflexivity.
Qed.

Lemma helpers_return_success_body_verbatim_witness :
  let w := fresh (browser (ok_json (JObj [("exists", JBool false)]))) in
  fst (getDailyPlan "2026-01-01" w) = Normal (JObj [("exists", JBool false)]) /\
  field_of (JObj [("exists", JBool false)]) "plan" = JUndefined.
Proof.
  intros w. split; [|reflexivity].
  exact (proj1 (proj2 (helpers_return_success_body_verbatim w
                         {| status := 200; statusText := "OK";
                            payload := JsonBody (JObj [("exists", JBool false)]) |}
                         (JObj [("exists", JBool false)])
                         eq_refl eq_refl eq_refl)) "2026-01-01").
Defined.

(** X23. On a success status with a JSON body, [generateDailyPlan]
    and [toggleTaskCompletion] return the body's [plan] when its [ok] is
    truthy and [null] otherwise ([null] also for a [null] body); a body with
    [ok: true] and no [plan] therefore yields [undefined], not [null]. *)
Theorem plan_helpers_unwrap_plan (w : World) (r : Response) (v : JsVal) :
  reply w = Responded r -> ok r = true -> payload r = JsonBody v ->
  let unwrapped :=
    match v with
    | JNull | JUndefined => JNull
    | _ => if truthy (field_of v "ok") then field_of v "plan" else JNull
    end in
  (forall dateStr, fst (generateDailyPlan dateStr w) = Normal unwrapped) /\
  (forall taskId completed date,
      fst (toggleTaskCompletion taskId completed date w) = Normal unwrapped) /\
  (forall props, v = JObj props -> own_prop props "ok" = JBool true ->
      own_prop props "plan" = JUndefined -> unwrapped = JUndefined).
Proof.
  intros Hr Hok Hp. cbv zeta. repeat split; intros.
  - unfold generateDailyPlan. run_answered Hr Hok Hp.
    destruct v; cbn; try reflexivity. now destruct (truthy _).
  - unfold toggleTaskCompletion. run_answered Hr Hok Hp.
    destruct v; cbn; try reflexivity. now destruct (truthy _).
  - subst v. cbn. rewrite H0. cbn. exact H1.
Qed.

Lemma plan_helpers_unwrap_plan_witness :
  let w := fresh (browser (ok_json (JObj [("ok", JBool true)]))) in
  fst (generateDailyPlan "2026-01-01" w) = Normal JUndefined.
Proof.
  intros w.
  exact (proj1 (plan_helpers_unwrap_plan w
                  {| status := 200; statusText := "OK";
                     payload := JsonBody (JObj [("ok", JBool true)]) |}
                  (JObj [("ok", JBool true)]) eq_refl eq_refl eq_refl)
               "2026-01-01").
Defined.

(** X24. On a non-success status [captureContext] reports the
    [error] of the JSON body when it is truthy, [Failed to capture context]
    when the body is JSON without one, and [Network error] when the body is
    [null] or cannot be read. *)
Theorem captureContext_failure_message (content : string) (w : World) (r : Response) :
  reply w = Responded r -> ok r = false ->
  fst (captureContext content w) =
    Normal (JObj [("ok", JBool false);
                  ("error",
                   match payload r with
                   | JsonBody JNull | JsonBody JUndefined => JStr "Network error"
                   | JsonBody v =>
                       js_or (field_of v "error") (JStr "Failed to capture context")
                   | MalformedBody | AbortedBody => JStr "Network error"
                   end)]).
Proof.
  intros Hr Hok. unfold captureContext, try_catch, bind.
  rewrite getBackendUrl_eq. unfold fetch. rewrite Hr. cbn. rewrite Hok. cbn [negb].
  unfold response_json, bind.
  destruct (payload r) as [[]| |]; reflexivity.
Qed.

Lemma captureContext_failure_message_witness :
  let w := fresh (browser server_error) in
  fst (captureContext "note" w) =
    Normal (JObj [("ok", JBool false); ("error", JStr "boom")]).
Proof.
  intros w.
  exact (captureContext_failure_message "note" w
           {| status := 500; statusText := "Internal Server Error";
              payload := JsonBody (JObj [("error", JStr "boom")]) |}
           eq_refl eq_refl).
Defined.

(** X25. For a clock with a four-digit year, [DashboardPage]
    passes no initial data and selects the local date as ten characters
    [YYYY-MM-DD], the same string [getTodayPlan] asks [getDailyPlan] for. *)
Theorem DashboardPage_selects_todays_plan_date (w : World) :
  let now := clock (host w) in
  (0 <= getMonth now <= 11)%Z ->
  (1 <= getDate now <= 31)%Z ->
  (1000 <= getFullYear now <= 9999)%Z ->
  exists props,
    DashboardPage w = (Normal props, w) /\
    initialPlanResponse props = JNull /\ availableDates props = JNull /\
    initialSelectedDate props =
      iso_date (getFullYear now) (getMonth now + 1) (getDate now) /\
    String.length (initialSelectedDate props) = 10%nat /\
    getTodayPlan w = getDailyPlan (initialSelectedDate props) w.
Proof.
  intros now Hm Hd Hy. eexists. split; [reflexivity|]. cbn.
  fold now. rewrite !padStart_two_digits by lia.
  rewrite String_of_number_four_digits by lia.
  repeat split. unfold today_dateStr.
  rewrite !padStart_two_digits by lia.
  now rewrite String_of_number_four_digits by lia.
Qed.

Lemma DashboardPage_selects_todays_plan_date_witness :
  let w := fresh (browser NetworkFailure) in
  exists props,
    DashboardPage w = (Normal props, w) /\
    initialPlanResponse props = JNull /\ availableDates props = JNull /\
    initialSelectedDate props = "2026-01-01" /\
    String.length (initialSelectedDate props) = 10%nat /\
    getTodayPlan w = getDailyPlan (initialSelectedDate props) w.
Proof.
  intros w.
  assert (Hm : (0 <= getMonth (clock (host w)) <= 11)%Z) by (cbn; lia).
  assert (Hd : (1 <= getDate (clock (host w)) <= 31)%Z) by (cbn; lia).
  assert (Hy : (1000 <= getFullYear (clock (host w)) <= 9999)%Z) by (cbn; lia).
  exact (DashboardPage_selects_todays_plan_date w Hm Hd Hy).
Defined.

(** X26. Where storage can be written, after a [saveSettings] that
    carries a server URL that is not blank (whether the save succeeded or
    threw) the next [getDailyPlan] sends its request, ngrok header included,
    to the new URL. *)
Theorem helpers_follow_a_saved_server_url
    (updates : Partial.Settings) (newUrl dateStr : string) (w : World) :
  storage_usable w = true ->
  Partial.serverUrl updates = Some newUrl ->
  trim newUrl <> "" ->
  let w1 := snd (saveSettings updates w) in
  exists req,
    sent (snd (getDailyPlan dateStr w1)) = req :: sent w1 /\
    url req = trim newUrl +:+ "/api/daily-plan?date=" +:+ dateStr /\
    header_value "ngrok-skip-browser-warning" req = Some "69420".
Proof.
  intros Hu Hnew Hne w1.
  destruct (saveSettings_frame updates w) as (Hh & Hs & _). fold w1 in Hh, Hs.
  unfold before_request, target_url in Hs. rewrite Hnew in Hs.
  rewrite (str_or_nonempty _ _ Hne) in Hs.
  destruct (stored_url_after_store (trim newUrl) w w1 Hu Hh Hs) as (_ & Hr).
  rewrite !trim_idem, (str_or_nonempty _ _ Hne) in Hr.
  destruct (getDailyPlan_run dateStr w1) as [res ->]. cbn.
  eexists. split; [reflexivity|]. cbn. now rewrite Hr.
Qed.

Lemma helpers_follow_a_saved_server_url_witness :
  let w := fresh (browser server_error) in
  let w1 := snd (saveSettings (only_serverUrl " http://x ") w) in
  storage_usable w = true /\
  exists req,
    sent (snd (getDailyPlan "2026-01-01" w1)) = req :: sent w1 /\
    url req = "http://x/api/daily-plan?date=2026-01-01" /\
    header_value "ngrok-skip-browser-warning" req = Some "69420".
Proof.
  intros w w1. split; [reflexivity|].
  apply (helpers_follow_a_saved_server_url
           (only_serverUrl " http://x ") " http://x " "2026-01-01" w);
    try reflexivity.
  discriminate.
Defined.

(** X27. After a successful [loadSettings], [getCachedSettings]
    returns the loaded value; [clearSettingsCache] (and [refreshApiSettings],
    which does the same) then makes it return [null], without touching
    storage or the resolved URL. *)
Theorem cache_round_trip (w : World) (v : JsVal) :
  answers_json w v ->
  exists (s : Settings) (w1 w2 : World),
    loadSettings w = (Normal s, w1) /\
    getCachedSettings w1 = (Normal (Some s), w1) /\
    clearSettingsCache w1 = (Normal tt, w2) /\
    getCachedSettings w2 = (Normal None, w2) /\
    refreshApiSettings w1 = (Normal tt, w2) /\
    localStorage w2 = localStorage w /\
    getBaseUrl w2 = (Normal (serverUrl s), w2).
Proof.
  intros Hjson.
  destruct (loadSettings_success w v Hjson) as (s & Hs & _ & _ & Hurl).
  eexists s, _, _. split; [exact Hs|]. split; [reflexivity|].
  split; [reflexivity|]. split; [reflexivity|]. split; [reflexivity|].
  split; [reflexivity|]. rewrite getBaseUrl_eq, Hurl. reflexivity.
Qed.

Lemma cache_round_trip_witness :
  let w := fresh (browser (ok_json hostile_body)) in
  answers_json w hostile_body /\
  exists (s : Settings) (w1 w2 : World),
    loadSettings w = (Normal s, w1) /\
    getCachedSettings w1 = (Normal (Some s), w1) /\
    clearSettingsCache w1 = (Normal tt, w2) /\
    getCachedSettings w2 = (Normal None, w2) /\
    refreshApiSettings w1 = (Normal tt, w2) /\
    localStorage w2 = localStorage w /\
    getBaseUrl w2 = (Normal (serverUrl s), w2).
Proof.
  intros w.
  assert (H : answers_json w hostile_body).
  { eexists. repeat split; try reflexivity; discriminate. }
  split; [exact H|].
  exact (cache_round_trip w hostile_body H).
Defined.

